(** * Trivia API: a shallow embedding of [backend/flaskr/__init__.py]

    The request handlers of the Flask application are translated into
    Rocq functions over an explicit database state.  Exceptions (including
    the [HTTPException]s raised by [abort]) are values of an error monad,
    so that the [try ... except BaseException] blocks of the handlers can
    be written out exactly as they are in the source. *)

From Stdlib Require Import ZArith String Ascii Bool List Lia Sorting.Sorted.
Import ListNotations.

Local Open Scope string_scope.
Local Open Scope list_scope.
Local Open Scope Z_scope.

(* ================================================================== *)
(** ** JSON values produced by [jsonify] *)
(* ================================================================== *)

Unset Elimination Schemes.
Inductive json : Type :=
| JNull
| JBool (b : bool)
| JInt (n : Z)
| JStr (s : string)
| JArr (items : list json)
| JObj (fields : list (string * json)).
Set Elimination Schemes.

(* ================================================================== *)
(** ** The data-access layer *)
(* ================================================================== *)

(** Modelled from the spec: the entity [Question] of [models.py] (which is
    not part of the sources): an integer identity, the question and answer
    texts, the category id and the difficulty; [format] is its projection
    to a plain mapping. *)
Module Question.

Record t : Type := Build
  { id : Z;
    question : string;
    answer : string;
    category : Z;
    difficulty : Z }.

Definition format (q : t) : json :=
  JObj [ ("id", JInt (id q));
         ("question", JStr (question q));
         ("answer", JStr (answer q));
         ("category", JInt (category q));
         ("difficulty", JInt (difficulty q)) ].

End Question.

(** Modelled from the spec: the entity [Category] of [models.py]: an
    integer identity and a text label. *)
Module Category.

Record t : Type := Build
  { id : Z;
    type : string }.

Definition format (c : t) : json :=
  JObj [ ("id", JInt (id c)); ("type", JStr (type c)) ].

End Category.

(** Modelled from the spec: the relational database behind the ORM.  The
    two tables are kept in storage order; [reachable] is false when the
    database cannot answer, in which case every query raises. *)
Record Database : Type := mkDatabase
  { questions : list Question.t;
    categories : list Category.t;
    reachable : bool }.

(** Python exceptions that the handlers can meet.  [HTTPException c] is
    what [abort(c)] raises. *)
Inductive exn : Type :=
| TypeError
| KeyError
| IndexError
| OperationalError
| MultipleResultsFound
| HTTPException (code : Z).

(** Computations of a request: they read and update the database and
    either raise or return. *)
Definition App (A : Type) : Type := Database -> Database * (exn + A).

Definition ret {A} (a : A) : App A := fun db => (db, inr a).

Definition raise {A} (e : exn) : App A := fun db => (db, inl e).

Definition bind {A B} (m : App A) (k : A -> App B) : App B :=
  fun db =>
    match m db with
    | (db', inl e) => (db', inl e)
    | (db', inr a) => k a db'
    end.

Notation "x <- m ;; k" := (bind m (fun x => k))
  (at level 61, m at next level, right associativity).
Notation "m ;;; k" := (bind m (fun _ => k))
  (at level 61, right associativity).

(** [try: body except BaseException: handler] *)
Definition try_except {A} (body : App A) (handler : exn -> App A) : App A :=
  fun db =>
    match body db with
    | (db', inl e) => handler e db'
    | r => r
    end.

(** [abort(code)] raises the HTTP exception of that status. *)
Definition abort {A} (code : Z) : App A := raise (HTTPException code).

(** [Question.query ... .all()] and iteration over a query: the rows that
    the composed query [q] selects. *)
Definition Question_query (q : list Question.t -> list Question.t)
  : App (list Question.t) :=
  fun db =>
    if reachable db then (db, inr (q (questions db)))
    else (db, inl OperationalError).

Definition Category_query_all : App (list Category.t) :=
  fun db =>
    if reachable db then (db, inr (categories db))
    else (db, inl OperationalError).

(** [order_by(Question.id)]: ascending by id (a stable insertion sort). *)
Fixpoint insert_by_id (q : Question.t) (l : list Question.t)
  : list Question.t :=
  match l with
  | [] => [q]
  | x :: l' =>
      if Question.id q <? Question.id x then q :: l
      else x :: insert_by_id q l'
  end.

Fixpoint order_by_id (l : list Question.t) : list Question.t :=
  match l with
  | [] => []
  | q :: l' => insert_by_id q (order_by_id l')
  end.

(** [filter(Question.category == category_id)] *)
Definition filter_category (category_id : Z) (l : list Question.t)
  : list Question.t :=
  filter (fun q => Question.category q =? category_id) l.

(** [filter(Question.id == question_id)] *)
Definition filter_id (question_id : Z) (l : list Question.t)
  : list Question.t :=
  filter (fun q => Question.id q =? question_id) l.

(** [one_or_none()] *)
Definition one_or_none {A} (rows : list A) : App (option A) :=
  match rows with
  | [] => ret None
  | [r] => ret (Some r)
  | _ => raise MultipleResultsFound
  end.

(** Modelled from the spec: [question.delete()] removes the row with the
    question's identity and commits. *)
Definition Question_delete (q : Question.t) : App unit :=
  fun db =>
    if reachable db then
      (mkDatabase
         (filter (fun x => negb (Question.id x =? Question.id q))
                 (questions db))
         (categories db) (reachable db),
       inr tt)
    else (db, inl OperationalError).

(* ================================================================== *)
(** ** Requests *)
(* ================================================================== *)

(** [request.args]: [args_page] is the [page] query argument after the
    [int] conversion; it is [None] when the argument is absent or does not
    convert, the two cases in which [args.get('page', 1, type=int)]
    returns the default. *)
Record Request : Type := mkRequest
  { args_page : option Z }.

(** The JSON body of [POST /search]; a missing key is [None]. *)
Record SearchBody : Type := mkSearchBody
  { searchTerm : option string }.

(** The JSON body of [POST /quizzes]: [quiz_category] is an object whose
    [id] key may be missing; [previous_questions] is a list of ids.  Either
    key may be absent from the body. *)
Record QuizCategory : Type := mkQuizCategory
  { quiz_id : option Z }.

Record QuizBody : Type := mkQuizBody
  { quiz_category : option QuizCategory;
    previous_questions : option (list Z) }.

(** The body [{"quiz_category": {"id": category_id},
    "previous_questions": previous}]. *)
Definition quiz_body (category_id : Z) (previous : list Z) : QuizBody :=
  mkQuizBody (Some (mkQuizCategory (Some category_id))) (Some previous).

(* ================================================================== *)
(** ** Pagination *)
(* ================================================================== *)

Definition QUESTIONS_PER_PAGE : Z := 10.

(** Python's normalisation of a slice bound against a length [n]. *)
Definition slice_bound (n i : Z) : Z :=
  if i <? 0 then Z.max 0 (i + n) else Z.min i n.

(** [l[start:stop]] *)
Definition py_slice {A} (l : list A) (start stop : Z) : list A :=
  let n := Z.of_nat (length l) in
  let lo := slice_bound n start in
  let hi := slice_bound n stop in
  firstn (Z.to_nat (hi - lo)) (skipn (Z.to_nat lo) l).

Definition get_page (request : Request) : Z :=
  match args_page request with
  | Some p => p
  | None => 1
  end.

Definition paginate_questions (request : Request)
  (selection : list Question.t) : list json :=
  let page := get_page request in
  let start := (page - 1) * QUESTIONS_PER_PAGE in
  let end_ := start + QUESTIONS_PER_PAGE in
  let questions := map Question.format selection in
  let current_questions := py_slice questions start end_ in
  current_questions.

(* ================================================================== *)
(** ** SQL [ILIKE] *)
(* ================================================================== *)

(** Case folding of the letters [A]-[Z]; every other byte is left as it
    is.  On ASCII text this is the folding that the database applies; the
    database also folds letters outside ASCII, which this byte-wise
    definition does not follow, so the properties that read a text through
    the folding are stated for ASCII terms and texts ([is_ascii],
    [ascii_texts]) unless the pattern itself fixes the outcome. *)
Definition lower (c : ascii) : ascii :=
  let n := nat_of_ascii c in
  if (Nat.leb 65 n && Nat.leb n 90)%bool then ascii_of_nat (n + 32) else c.

(** [LIKE] on the bytes of a text: [%] matches any run, [_] any single
    byte, and a backslash takes the next pattern byte literally.  On ASCII
    text a byte is a character, and this is the operator of the database;
    on other text the database counts one character, not one byte, for
    [_].  (A pattern ending in a lone backslash is an error in SQL; the
    handlers never build one, their patterns end in [%].) *)
Fixpoint like (p : list ascii) : list ascii -> bool :=
  match p with
  | [] => fun s => match s with [] => true | _ :: _ => false end
  | c :: p' =>
      if Ascii.eqb c "%" then
        fix any (s : list ascii) : bool :=
          (like p' s
           || match s with [] => false | _ :: s' => any s' end)%bool
      else if Ascii.eqb c "_" then
        fun s => match s with [] => false | _ :: s' => like p' s' end
      else if Ascii.eqb c "\" then
        match p' with
        | [] => fun _ => false
        | d :: p'' =>
            fun s =>
              match s with
              | [] => false
              | x :: s' => (Ascii.eqb x d && like p'' s')%bool
              end
        end
      else
        fun s =>
          match s with
          | [] => false
          | x :: s' => (Ascii.eqb x c && like p' s')%bool
          end
  end.

(** [column.ilike(pattern)]: [LIKE] up to the case of letters; exact for
    ASCII patterns and texts (see [lower] and [like]). *)
Definition ilike (pattern text : string) : bool :=
  like (map lower (list_ascii_of_string pattern))
       (map lower (list_ascii_of_string text)).

(** ['%{}%'.format(search)] *)
Definition format_search (search : option string) : string :=
  match search with
  | Some s => ("%" ++ s ++ "%")%string
  | None => "%None%"
  end.

(* ================================================================== *)
(** ** Helpers of the quiz handler *)
(* ================================================================== *)

(** [quiz_category['id']] *)
Definition subscript_id (quiz_category : option QuizCategory) : App Z :=
  match quiz_category with
  | None => raise TypeError
  | Some c =>
      match quiz_id c with
      | None => raise KeyError
      | Some i => ret i
      end
  end.

(** [x not in container] *)
Definition not_in (x : Z) (container : option (list Z)) : App bool :=
  match container with
  | None => raise TypeError
  | Some l => ret (negb (existsb (Z.eqb x) l))
  end.

(** The loop that appends to [new_questions] every question whose id is
    not in [previous_questions]. *)
Fixpoint collect_new (questions : list Question.t)
  (previous_questions : option (list Z)) : App (list Question.t) :=
  match questions with
  | [] => ret []
  | question :: rest =>
      fresh <- not_in (Question.id question) previous_questions ;;
      new_questions <- collect_new rest previous_questions ;;
      ret (if fresh then question :: new_questions else new_questions)
  end.

(** [random.choice(seq)]: [rnd] is the generator's draw, reduced below
    the length of the sequence; an empty sequence raises. *)
Definition random_choice {A} (rnd : nat) (seq : list A) : App A :=
  match nth_error seq (Nat.modulo rnd (length seq)) with
  | Some x => ret x
  | None => raise IndexError
  end.

(* ================================================================== *)
(** ** The request handlers of [create_app] *)
(* ================================================================== *)

(** A view returns [Some j] for [return jsonify(j)] and [None] when the
    function body ends without a [return]. *)
Definition View : Type := App (option json).

Definition jsonify (fields : list (string * json)) : View :=
  ret (Some (JObj fields)).

Definition len {A} (l : list A) : Z := Z.of_nat (length l).

(** [GET /questions] *)
Definition retrieve_questions (request : Request) : View :=
  let selection := Question_query order_by_id in
  categories <- Category_query_all ;;
  let all_categories := map Category.format categories in
  rows <- selection ;;
  let current_questions := paginate_questions request rows in
  if len current_questions =? 0 then abort 404
  else
    all_questions <- Question_query (fun l => l) ;;
    jsonify [ ("success", JBool true);
              ("questions", JArr current_questions);
              ("total_questions", JInt (len all_questions));
              ("current category", JNull);
              ("categories", JArr all_categories) ].

(** [GET /categories] *)
Definition retrive_categories : View :=
  categories <- Category_query_all ;;
  let all_categories := map Category.format categories in
  if len all_categories =? 0 then abort 404
  else
    jsonify [ ("success", JBool true);
              ("categories", JArr all_categories);
              ("total_categories", JInt (len all_categories)) ].

(** [GET /categories/<int:category_id>/questions] *)
Definition retrieve_questions_by_category (request : Request)
  (category_id : Z) : View :=
  try_except
    (questions_by_category <-
       Question_query (fun l => filter_category category_id (order_by_id l)) ;;
     let questions_paginated :=
       paginate_questions request questions_by_category in
     if len questions_paginated =? 0 then abort 404
     else
       in_category <- Question_query (filter_category category_id) ;;
       jsonify [ ("success", JBool true);
                 ("questions", JArr questions_paginated);
                 ("total_questions", JInt (len in_category));
                 ("current_category", JInt category_id) ])
    (fun _ => abort 422).

(** [DELETE /questions/<int:question_id>] *)
Definition delete_question (question_id : Z) : View :=
  try_except
    (rows <- Question_query (filter_id question_id) ;;
     question <- one_or_none rows ;;
     match question with
     | None => abort 404
     | Some q =>
         Question_delete q ;;;
         jsonify [ ("success", JBool true);
                   ("deleted", Question.format q);
                   ("deleted_id", JInt question_id) ]
     end)
    (fun _ => abort 422).

(** [POST /search], from the parsed body on: [body] is what
    [request.get_json()] returned.  A request whose body the framework
    cannot parse is answered by [get_json] itself and does not reach the
    code below. *)
Definition search_question (request : Request) (body : SearchBody) : View :=
  let search := searchTerm body in
  let questions :=
    Question_query
      (fun l =>
         filter (fun q => ilike (format_search search) (Question.question q))
                (order_by_id l)) in
  rows <- questions ;;
  let questions_paginated := paginate_questions request rows in
  jsonify [ ("success", JBool true);
            ("questions", JArr questions_paginated) ].

(** The category check of [retrieve_quizzes]: the questions the draw is
    made from. *)
Definition quiz_questions (category_id : Z) : App (list Question.t) :=
  if category_id =? 0 then Question_query (fun l => l)
  else Question_query (filter_category category_id).

(** The part of [retrieve_quizzes] inside its [try] block.  (The source
    also appends the chosen question to the request's own
    [previous_questions] list, which is not read again.) *)
Definition retrieve_quizzes_try (rnd : nat) (category_id : Z)
  (previous_questions : option (list Z)) : View :=
  questions <- quiz_questions category_id ;;
  new_questions <- collect_new questions previous_questions ;;
  match new_questions with
  | [] => ret None
  | _ :: _ =>
      question <- random_choice rnd questions ;;
      let formatted_question := Question.format question in
      jsonify [ ("success", JBool true);
                ("question", formatted_question) ]
  end.

(** [POST /quizzes], from the parsed body on: [body] is what
    [request.get_json()] returned (a body that cannot be parsed is
    answered by [get_json] itself); [rnd] is the draw of the random
    generator. *)
Definition retrieve_quizzes (rnd : nat) (body : QuizBody) : View :=
  let quiz_category := quiz_category body in
  let previous_questions := previous_questions body in
  category_id <- subscript_id quiz_category ;;
  try_except
    (retrieve_quizzes_try rnd category_id previous_questions)
    (fun _ => abort 404).

(* ================================================================== *)
(** ** Error handlers and the dispatch of a request *)
(* ================================================================== *)

Record Response : Type := mkResponse
  { status : Z;
    payload : json }.

Definition error_envelope (code : Z) (message : string) : Response :=
  mkResponse code
    (JObj [ ("success", JBool false);
            ("error", JInt code);
            ("message", JStr message) ]).

(** The handlers registered with [@app.errorhandler]. *)
Definition errorhandler (code : Z) : option Response :=
  if code =? 400 then Some (error_envelope 400 "Bad Request")
  else if code =? 404 then Some (error_envelope 404 "Not Found")
  else if code =? 405 then Some (error_envelope 405 "Method not allowed")
  else if code =? 422 then Some (error_envelope 422 "Unprocessable")
  else if code =? 500 then Some (error_envelope 500 "Internal server error")
  else None.

(** An HTTP exception is answered by its registered handler; a status
    without one gets the framework's own page, which carries no JSON. *)
Definition handle_http_exception (code : Z) : Response :=
  match errorhandler code with
  | Some r => r
  | None => mkResponse code JNull
  end.

(** Flask's dispatch: a returned value is a 200 response; an HTTP
    exception goes to its handler; any other exception, and a view that
    returns nothing, is an internal server error. *)
Definition dispatch (view : View) (db : Database) : Database * Response :=
  match view db with
  | (db', inr (Some j)) => (db', mkResponse 200 j)
  | (db', inr None) => (db', handle_http_exception 500)
  | (db', inl (HTTPException code)) => (db', handle_http_exception code)
  | (db', inl _) => (db', handle_http_exception 500)
  end.

Definition respond (view : View) (db : Database) : Response :=
  snd (dispatch view db).

(** A success response: status 200 whose envelope has [success] true. *)
Definition is_success (r : Response) : bool :=
  (status r =? 200)
  && match payload r with
     | JObj (("success", JBool true) :: _) => true
     | _ => false
     end.

(* ================================================================== *)
(** ** Notions used to state the properties *)
(* ================================================================== *)

(** The candidate set of a quiz draw, in the words of the specification:
    all questions when the category id is 0, otherwise the questions of
    that category. *)
Definition candidate_set (db : Database) (category_id : Z)
  : list Question.t :=
  if category_id =? 0 then questions db
  else filter (fun q => Question.category q =? category_id) (questions db).

(** [prefixb s t]: [t] starts with [s]. *)
Fixpoint prefixb (s t : list ascii) : bool :=
  match s, t with
  | [], _ => true
  | _ :: _, [] => false
  | a :: s', b :: t' => Ascii.eqb a b && prefixb s' t'
  end.

(** [infixb s t]: [s] occurs in [t] as a contiguous run. *)
Fixpoint infixb (s t : list ascii) : bool :=
  prefixb s t
  || match t with
     | [] => false
     | _ :: t' => infixb s t'
     end.

(** Case-insensitive substring test on texts, with the folding [lower]:
    on ASCII texts, "contains, up to the case of letters". *)
Definition contains_ci (s text : string) : bool :=
  infixb (map lower (list_ascii_of_string s))
         (map lower (list_ascii_of_string text)).

(** The characters that [LIKE] does not take literally. *)
Definition like_special (c : ascii) : bool :=
  Ascii.eqb c "%" || Ascii.eqb c "_" || Ascii.eqb c "\".

Definition plain_term (s : string) : bool :=
  forallb (fun c => negb (like_special c)) (list_ascii_of_string s).

(** The success envelope of a quiz draw that returns [question]. *)
Definition quiz_success (question : Question.t) : json :=
  JObj [ ("success", JBool true);
         ("question", Question.format question) ].

(** The ids of a list of questions are in ascending order. *)
Definition ascending_ids (l : list Question.t) : Prop :=
  StronglySorted (fun a b => Question.id a <= Question.id b) l.

(** The rows of a page before they are formatted. *)
Definition page_rows (request : Request) (selection : list Question.t)
  : list Question.t :=
  let start := (get_page request - 1) * QUESTIONS_PER_PAGE in
  py_slice selection start (start + QUESTIONS_PER_PAGE).

(** The rows that the query of [search_question] selects. *)
Definition search_matches (db : Database) (search : option string)
  : list Question.t :=
  filter (fun q => ilike (format_search search) (Question.question q))
         (order_by_id (questions db)).

(** A text made of ASCII characters only. *)
Definition is_ascii (s : string) : bool :=
  forallb (fun c => Nat.ltb (nat_of_ascii c) 128) (list_ascii_of_string s).

(** Every stored question text is ASCII. *)
Definition ascii_texts (db : Database) : bool :=
  forallb (fun q => is_ascii (Question.question q)) (questions db).

(** A term without the escape character of [LIKE]. *)
Definition no_backslash (s : string) : bool :=
  forallb (fun c => negb (Ascii.eqb c "\")) (list_ascii_of_string s).

(** The three error envelopes that the handlers can answer with. *)
Definition not_found : Response := error_envelope 404 "Not Found".

Definition unprocessable : Response := error_envelope 422 "Unprocessable".

Definition server_error : Response :=
  error_envelope 500 "Internal server error".

(** The database after the rows with identity [question_id] are gone. *)
Definition without_question (db : Database) (question_id : Z) : Database :=
  mkDatabase
    (filter (fun x => negb (Question.id x =? question_id)) (questions db))
    (categories db) (reachable db).

(** The success envelope of a deletion. *)
Definition deleted_envelope (q : Question.t) (question_id : Z) : json :=
  JObj [ ("success", JBool true);
         ("deleted", Question.format q);
         ("deleted_id", JInt question_id) ].

(** An answer in the uniform shape: a success envelope with status 200,
    or one of the three error envelopes. *)
Definition uniform_answer (r : Response) : Prop :=
  is_success r = true
  \/ r = not_found \/ r = unprocessable \/ r = server_error.

(* ================================================================== *)
(** ** Sample data for concrete runs *)
(* ================================================================== *)

Definition sample_question (i : Z) : Question.t :=
  Question.Build i "Who?" "They" 1 1.

Definition twelve_questions : list Question.t :=
  map sample_question [1; 2; 3; 4; 5; 6; 7; 8; 9; 10; 11; 12].

Definition twelve_db : Database :=
  mkDatabase twelve_questions [Category.Build 1 "Science"] true.

(** Two questions of category 2, as in the quiz of the test-suite. *)
Definition question_1 : Question.t :=
  Question.Build 1 "Who painted it?" "Someone" 2 3.

Definition question_2 : Question.t :=
  Question.Build 2 "abc" "def" 2 1.

Definition art_db : Database :=
  mkDatabase [question_1; question_2]
             [Category.Build 2 "Art"; Category.Build 1 "Science"] true.


(* ================================================================== *)
(** ** Pagination: proofs *)
(* ================================================================== *)

Lemma slice_bound_nonneg (n i : Z) :
  0 <= i -> slice_bound n i = Z.min i n.
Proof.
  intros Hi. unfold slice_bound.
  destruct (Z.ltb_spec i 0); [lia | reflexivity].
Qed.

(** A slice with non-negative bounds [a] and [a + k] is the [k] items
    after the first [a]. *)
Lemma py_slice_window {A} (l : list A) (a k : nat) :
  py_slice l (Z.of_nat a) (Z.of_nat a + Z.of_nat k) = firstn k (skipn a l).
Proof.
  unfold py_slice.
  rewrite !slice_bound_nonneg by lia.
  destruct (Nat.le_gt_cases (length l) a) as [Hout | Hin].
  - replace (Z.to_nat (Z.min (Z.of_nat a) (Z.of_nat (length l))))
      with (length l) by lia.
    rewrite skipn_all, (skipn_all2 l Hout).
    now rewrite !firstn_nil.
  - replace (Z.to_nat (Z.min (Z.of_nat a) (Z.of_nat (length l))))
      with a by lia.
    destruct (Nat.le_gt_cases (length l - a) k) as [Hshort | Hlong].
    + rewrite !firstn_all2; try reflexivity; rewrite length_skipn; lia.
    + f_equal. lia.
Qed.

Lemma paginate_questions_window (request : Request)
  (selection : list Question.t) :
  1 <= get_page request ->
  paginate_questions request selection =
  firstn 10 (skipn (Z.to_nat ((get_page request - 1) * 10))
                   (map Question.format selection)).
Proof.
  intros Hp. unfold paginate_questions, QUESTIONS_PER_PAGE.
  rewrite <- (py_slice_window _ (Z.to_nat ((get_page request - 1) * 10)) 10).
  f_equal; lia.
Qed.

Lemma In_firstn {A} (n : nat) (l : list A) (x : A) :
  In x (firstn n l) -> In x l.
Proof.
  revert l. induction n as [|n IH]; intros [|y l]; simpl; try tauto.
  intros [Heq | Hin]; [now left | right; now apply IH].
Qed.

Lemma In_skipn {A} (n : nat) (l : list A) (x : A) :
  In x (skipn n l) -> In x l.
Proof.
  revert l. induction n as [|n IH]; intros [|y l]; simpl; try tauto.
  intros Hin. right. now apply IH.
Qed.

(** The items of a page are formatted questions of the selection. *)
Lemma paginate_questions_In (request : Request)
  (selection : list Question.t) (j : json) :
  In j (paginate_questions request selection) ->
  exists q, In q selection /\ j = Question.format q.
Proof.
  unfold paginate_questions, py_slice. intros Hj.
  apply In_firstn, In_skipn in Hj.
  apply in_map_iff in Hj. destruct Hj as (q & Hq & Hin).
  exists q. auto.
Qed.

Lemma paginate_questions_nil (request : Request) :
  paginate_questions request [] = [].
Proof.
  unfold paginate_questions, py_slice. simpl.
  now rewrite skipn_nil, firstn_nil.
Qed.

Lemma len_zero {A} (l : list A) : (len l =? 0) = true <-> l = [].
Proof.
  unfold len. destruct l; simpl; split; intros H;
    try reflexivity; try discriminate; lia.
Qed.

Lemma len_zero_false {A} (l : list A) : (len l =? 0) = false <-> l <> [].
Proof.
  unfold len. destruct l; simpl; split; intros H;
    try reflexivity; try discriminate; try congruence; lia.
Qed.

(** A page that starts at or after the end of the selection is empty. *)
Lemma paginate_questions_beyond (request : Request)
  (selection : list Question.t) :
  1 <= get_page request ->
  (get_page request - 1) * 10 >= len selection ->
  paginate_questions request selection = [].
Proof.
  intros Hp Hb. rewrite paginate_questions_window by assumption.
  unfold len in Hb. rewrite skipn_all2; [apply firstn_nil|].
  rewrite length_map. lia.
Qed.

(** The first page of a selection of at most ten questions is all of it. *)
Lemma paginate_questions_first_page (request : Request)
  (selection : list Question.t) :
  get_page request = 1 ->
  len selection <= 10 ->
  paginate_questions request selection = map Question.format selection.
Proof.
  intros Hp Hlen. rewrite paginate_questions_window by lia.
  rewrite Hp. change (Z.to_nat ((1 - 1) * 10)) with 0%nat.
  rewrite skipn_O. apply firstn_all2.
  unfold len in Hlen. rewrite length_map. lia.
Qed.

(** C3: for a page number [p >= 1] the pagination utility returns the
    items at offsets [(p-1)*10 .. (p-1)*10+9] of the formatted selection
    that exist (as a list, and offset by offset); a page that starts at or
    after the end of the selection is empty; and the length of the page is
    the smaller of 10 and the number of items left at its start offset. *)
Theorem paginate_questions_page (request : Request)
  (selection : list Question.t) (p : Z) :
  get_page request = p ->
  1 <= p ->
  paginate_questions request selection =
    firstn 10 (skipn (Z.to_nat ((p - 1) * 10))
                     (map Question.format selection))
  /\ (forall i : nat,
        nth_error (paginate_questions request selection) i =
        if (i <? 10)%nat
        then nth_error (map Question.format selection)
                       (Z.to_nat ((p - 1) * 10) + i)
        else None)
  /\ ((p - 1) * 10 >= len selection ->
      paginate_questions request selection = [])
  /\ len (paginate_questions request selection) =
     Z.min 10 (Z.max 0 (len selection - (p - 1) * 10)).
Proof.
  intros Hpage Hp. subst p.
  rewrite (paginate_questions_window request selection Hp).
  set (off := Z.to_nat ((get_page request - 1) * 10)).
  set (items := map Question.format selection).
  assert (Hlen : length items = length selection)
    by (unfold items; apply length_map).
  repeat split.
  - intros i. now rewrite nth_error_firstn, nth_error_skipn.
  - unfold len. intros Hbeyond.
    rewrite (@skipn_all2 _ off items) by lia.
    apply firstn_nil.
  - unfold len. rewrite length_firstn, length_skipn, Hlen. lia.
Qed.

(** A run of the theorem: page 2 of twelve questions holds the last two. *)
Lemma paginate_questions_page_witness :
  paginate_questions (mkRequest (Some 2)) twelve_questions =
  map Question.format [sample_question 11; sample_question 12].
Proof.
  exact (proj1 (paginate_questions_page (mkRequest (Some 2)) twelve_questions
                  2 eq_refl (Zle_bool_imp_le 1 2 eq_refl))).
Defined.

(* ================================================================== *)
(** ** [order_by(Question.id)]: proofs *)
(* ================================================================== *)

Lemma insert_by_id_In (q x : Question.t) (l : list Question.t) :
  In x (insert_by_id q l) <-> x = q \/ In x l.
Proof.
  induction l as [|y l IH]; simpl.
  - intuition auto.
  - destruct (Question.id q <? Question.id y); simpl; rewrite ?IH;
      intuition auto.
Qed.

Lemma order_by_id_In (x : Question.t) (l : list Question.t) :
  In x (order_by_id l) <-> In x l.
Proof.
  induction l as [|y l IH]; simpl; [tauto|].
  rewrite insert_by_id_In, IH. intuition auto.
Qed.

Lemma insert_by_id_ascending (q : Question.t) (l : list Question.t) :
  ascending_ids l -> ascending_ids (insert_by_id q l).
Proof.
  unfold ascending_ids.
  induction l as [|y l IH]; simpl; intros Hs.
  - constructor; constructor.
  - apply StronglySorted_inv in Hs. destruct Hs as [Hl Hy].
    destruct (Z.ltb_spec (Question.id q) (Question.id y)) as [Hlt | Hge].
    + constructor.
      * now constructor.
      * constructor; [lia|].
        rewrite Forall_forall in *. intros z Hz.
        specialize (Hy z Hz). simpl in Hy. lia.
    + constructor; [now apply IH|].
      rewrite Forall_forall in *. intros z Hz.
      apply insert_by_id_In in Hz. destruct Hz as [-> | Hz]; [lia | auto].
Qed.

Lemma order_by_id_ascending (l : list Question.t) :
  ascending_ids (order_by_id l).
Proof.
  induction l as [|q l IH]; simpl.
  - constructor.
  - now apply insert_by_id_ascending.
Qed.


(* ================================================================== *)
(** ** [ILIKE] with a pattern [%term%]: proofs *)
(* ================================================================== *)

Lemma like_percent (p s : list ascii) :
  like ("%"%char :: p) s =
  like p s
  || match s with
     | [] => false
     | _ :: s' => like ("%"%char :: p) s'
     end.
Proof. destruct s; reflexivity. Qed.

Lemma like_literal (c : ascii) (p s : list ascii) :
  like_special c = false ->
  like (c :: p) s =
  match s with
  | [] => false
  | x :: s' => Ascii.eqb x c && like p s'
  end.
Proof.
  unfold like_special. intros Hc.
  apply orb_false_elim in Hc. destruct Hc as [Hc Hbs].
  apply orb_false_elim in Hc. destruct Hc as [Hpc Hus].
  simpl. rewrite Hpc, Hus, Hbs. reflexivity.
Qed.

Lemma like_percent_only (s : list ascii) : like ["%"%char] s = true.
Proof.
  induction s as [|x s IH]; rewrite like_percent; simpl.
  - reflexivity.
  - exact IH.
Qed.

(** A run of literal characters followed by [%] matches the texts that
    start with the run. *)
Lemma like_literal_prefix (s t : list ascii) :
  forallb (fun c => negb (like_special c)) s = true ->
  like (s ++ ["%"%char]) t = prefixb s t.
Proof.
  revert t. induction s as [|c s IH]; intros t Hs.
  - simpl app. rewrite like_percent_only. now destruct t.
  - simpl in Hs. apply andb_prop in Hs. destruct Hs as [Hc Hs].
    apply negb_true_iff in Hc.
    simpl app. rewrite like_literal by assumption.
    destruct t as [|x t]; simpl; [reflexivity|].
    rewrite IH by assumption. now rewrite Ascii.eqb_sym.
Qed.

Lemma like_infix (s t : list ascii) :
  forallb (fun c => negb (like_special c)) s = true ->
  like ("%"%char :: s ++ ["%"%char]) t = infixb s t.
Proof.
  intros Hs. induction t as [|x t IH].
  - rewrite like_percent, like_literal_prefix by assumption.
    simpl. now rewrite orb_false_r.
  - rewrite like_percent, like_literal_prefix, IH by assumption.
    reflexivity.
Qed.

Lemma like_special_lower (c : ascii) :
  like_special (lower c) = like_special c.
Proof.
  destruct c as [[] [] [] [] [] [] [] []]; reflexivity.
Qed.

Lemma list_ascii_of_string_app (a b : string) :
  list_ascii_of_string (a ++ b)%string =
  list_ascii_of_string a ++ list_ascii_of_string b.
Proof.
  induction a as [|c a IH]; simpl; [reflexivity | now rewrite IH].
Qed.

(** For a term without [%], [_] and backslash, [ILIKE '%term%'] is the
    case-insensitive substring test. *)
Lemma ilike_plain_term (s text : string) :
  plain_term s = true ->
  ilike (format_search (Some s)) text = contains_ci s text.
Proof.
  unfold plain_term, ilike, contains_ci, format_search. intros Hs.
  change ("%" ++ s ++ "%")%string with (String "%" (s ++ "%")).
  simpl list_ascii_of_string.
  rewrite list_ascii_of_string_app. simpl list_ascii_of_string.
  rewrite map_cons, map_app. simpl map at 2.
  change (lower "%") with "%"%char.
  apply like_infix.
  rewrite forallb_forall in *. intros c Hc.
  apply in_map_iff in Hc. destruct Hc as (c0 & <- & Hc0).
  rewrite like_special_lower. now apply Hs.
Qed.

Lemma ilike_missing_term (text : string) :
  ilike (format_search None) text = contains_ci "none" text.
Proof.
  change (format_search None) with (format_search (Some "None")).
  rewrite ilike_plain_term by reflexivity. reflexivity.
Qed.

(** [prefixb] and [infixb] decide "starts with" and "contains". *)
Lemma prefixb_spec (s t : list ascii) :
  prefixb s t = true <-> exists post, t = s ++ post.
Proof.
  revert t. induction s as [|a s IH]; intros t; simpl.
  - split; [intros _; now exists t | reflexivity].
  - destruct t as [|b t].
    + split; [discriminate | intros [post Hp]; discriminate].
    + rewrite andb_true_iff, Ascii.eqb_eq, IH. split.
      * intros [-> [post ->]]. now exists post.
      * intros [post Hp]. injection Hp as -> ->. split; [reflexivity|].
        now exists post.
Qed.

Lemma infixb_spec (s t : list ascii) :
  infixb s t = true <-> exists pre post, t = pre ++ s ++ post.
Proof.
  induction t as [|b t IH].
  - simpl. rewrite orb_false_r, prefixb_spec. split.
    + intros [post Hp]. now exists [], post.
    + intros (pre & post & Hp). destruct pre; [now exists post|].
      discriminate.
  - simpl infixb. rewrite orb_true_iff, prefixb_spec, IH. split.
    + intros [[post Hp] | (pre & post & Hp)].
      * now exists [], post.
      * exists (b :: pre), post. simpl. now rewrite Hp.
    + intros (pre & post & Hp). destruct pre as [|c pre].
      * left. now exists post.
      * right. simpl in Hp. injection Hp as _ Hp. now exists pre, post.
Qed.

(* ================================================================== *)
(** ** Running the queries *)
(* ================================================================== *)

Lemma Question_query_reachable (f : list Question.t -> list Question.t)
  (db : Database) :
  reachable db = true ->
  Question_query f db = (db, inr (f (questions db))).
Proof. intros H. unfold Question_query. now rewrite H. Qed.

Lemma Question_query_unreachable (f : list Question.t -> list Question.t)
  (db : Database) :
  reachable db = false ->
  Question_query f db = (db, inl OperationalError).
Proof. intros H. unfold Question_query. now rewrite H. Qed.

Lemma Category_query_all_reachable (db : Database) :
  reachable db = true ->
  Category_query_all db = (db, inr (categories db)).
Proof. intros H. unfold Category_query_all. now rewrite H. Qed.

Lemma insert_by_id_length (q : Question.t) (l : list Question.t) :
  length (insert_by_id q l) = S (length l).
Proof.
  induction l as [|x l IH]; simpl; [reflexivity|].
  destruct (Question.id q <? Question.id x); simpl; [reflexivity|].
  now rewrite IH.
Qed.

Lemma order_by_id_length (l : list Question.t) :
  length (order_by_id l) = length l.
Proof.
  induction l as [|x l IH]; simpl; [reflexivity|].
  now rewrite insert_by_id_length, IH.
Qed.

(* ================================================================== *)
(** ** [GET /questions] *)
(* ================================================================== *)

(** C7: when the page of questions is empty the answer is 404 Not Found,
    and a page number beyond the last page gives an empty page; otherwise
    the answer is a success envelope with the page, the count of all
    questions, a null current category and all categories. *)
Theorem retrieve_questions_response (db : Database) (request : Request) :
  reachable db = true ->
  (paginate_questions request (order_by_id (questions db)) = [] ->
   respond (retrieve_questions request) db = error_envelope 404 "Not Found")
  /\ (1 <= get_page request ->
      (get_page request - 1) * 10 >= len (questions db) ->
      respond (retrieve_questions request) db = error_envelope 404 "Not Found")
  /\ (paginate_questions request (order_by_id (questions db)) <> [] ->
      respond (retrieve_questions request) db =
      mkResponse 200
        (JObj [ ("success", JBool true);
                ("questions",
                 JArr (paginate_questions request
                         (order_by_id (questions db))));
                ("total_questions", JInt (len (questions db)));
                ("current category", JNull);
                ("categories",
                 JArr (map Category.format (categories db))) ])).
Proof.
  intros Hr.
  assert (Hrun : forall b,
    (len (paginate_questions request (order_by_id (questions db))) =? 0) = b ->
    respond (retrieve_questions request) db =
    if b then error_envelope 404 "Not Found"
    else mkResponse 200
        (JObj [ ("success", JBool true);
                ("questions",
                 JArr (paginate_questions request
                         (order_by_id (questions db))));
                ("total_questions", JInt (len (questions db)));
                ("current category", JNull);
                ("categories",
                 JArr (map Category.format (categories db))) ])).
  { intros b Hb.
    unfold respond, dispatch, retrieve_questions, bind.
    rewrite (Category_query_all_reachable db Hr).
    rewrite (Question_query_reachable order_by_id db Hr).
    rewrite Hb. destruct b.
    - reflexivity.
    - rewrite (Question_query_reachable (fun l => l) db Hr). reflexivity. }
  split; [|split].
  - intros Hnil. apply (Hrun true). now apply len_zero.
  - intros Hp Hb. apply (Hrun true). apply len_zero.
    apply paginate_questions_beyond; [assumption|].
    unfold len in *. rewrite order_by_id_length. exact Hb.
  - intros Hne. apply (Hrun false). now apply len_zero_false.
Qed.

Lemma retrieve_questions_response_witness :
  respond (retrieve_questions (mkRequest (Some 100))) twelve_db =
  error_envelope 404 "Not Found".
Proof.
  exact (proj1 (retrieve_questions_response twelve_db
                  (mkRequest (Some 100)) eq_refl) eq_refl).
Defined.

(* ================================================================== *)
(** ** [GET /categories/<id>/questions] *)
(* ================================================================== *)

Lemma retrieve_questions_by_category_run (db : Database)
  (request : Request) (category_id : Z) :
  reachable db = true ->
  respond (retrieve_questions_by_category request category_id) db =
  if len (paginate_questions request
            (filter_category category_id (order_by_id (questions db)))) =? 0
  then error_envelope 422 "Unprocessable"
  else mkResponse 200
         (JObj [ ("success", JBool true);
                 ("questions",
                  JArr (paginate_questions request
                          (filter_category category_id
                             (order_by_id (questions db)))));
                 ("total_questions",
                  JInt (len (filter_category category_id (questions db))));
                 ("current_category", JInt category_id) ]).
Proof.
  intros Hr.
  unfold respond, dispatch, retrieve_questions_by_category, try_except, bind.
  rewrite (Question_query_reachable _ db Hr).
  destruct (len _ =? 0).
  - reflexivity.
  - rewrite (Question_query_reachable _ db Hr). reflexivity.
Qed.

Lemma filter_category_none (category_id : Z) (l : list Question.t) :
  (forall q, In q l -> Question.category q <> category_id) ->
  filter_category category_id l = [].
Proof.
  unfold filter_category. induction l as [|x l IH]; intros H; simpl.
  - reflexivity.
  - destruct (Z.eqb_spec (Question.category x) category_id) as [E|_].
    + exfalso. apply (H x); [now left | exact E].
    + apply IH. intros q Hq. apply H. now right.
Qed.

Lemma filter_category_length (category_id : Z) (l : list Question.t) :
  length (filter_category category_id (order_by_id l)) =
  length (filter_category category_id l).
Proof.
  unfold filter_category.
  induction l as [|x l IH]; simpl; [reflexivity|].
  transitivity
    (length (filter (fun q => Question.category q =? category_id)
                    (x :: order_by_id l))).
  - generalize (order_by_id l) as s. clear IH.
    induction s as [|y s IHs]; simpl; [reflexivity|].
    destruct (Question.id x <? Question.id y); simpl; [reflexivity|].
    simpl in IHs.
    destruct (Question.category y =? category_id),
             (Question.category x =? category_id);
      simpl in *; rewrite IHs; reflexivity.
  - simpl. destruct (Question.category x =? category_id); simpl;
      now rewrite IH.
Qed.

(** C5 (amended): when the paginated result is empty, the 404 raised
    inside the [try] block is caught by the handler's own
    [except BaseException] and the answer is 422 Unprocessable, also when
    no question has the category or the page is out of range; a failure
    of the lookup is answered 422 as well. *)
Theorem retrieve_questions_by_category_unprocessable (db : Database)
  (request : Request) (category_id : Z) :
  (reachable db = false
   \/ paginate_questions request
        (filter_category category_id (order_by_id (questions db))) = [] ->
   respond (retrieve_questions_by_category request category_id) db =
   error_envelope 422 "Unprocessable")
  /\ ((forall q, In q (questions db) ->
                 Question.category q <> category_id) ->
      respond (retrieve_questions_by_category request category_id) db =
      error_envelope 422 "Unprocessable")
  /\ (1 <= get_page request ->
      (get_page request - 1) * 10 >=
        len (filter_category category_id (questions db)) ->
      respond (retrieve_questions_by_category request category_id) db =
      error_envelope 422 "Unprocessable").
Proof.
  assert (Hmain :
    reachable db = false
    \/ paginate_questions request
         (filter_category category_id (order_by_id (questions db))) = [] ->
    respond (retrieve_questions_by_category request category_id) db =
    error_envelope 422 "Unprocessable").
  { intros Hcase. destruct (reachable db) eqn:Hr.
    - destruct Hcase as [Hf | Hnil]; [discriminate|].
      rewrite retrieve_questions_by_category_run by assumption.
      apply len_zero in Hnil. now rewrite Hnil.
    - unfold respond, dispatch, retrieve_questions_by_category,
        try_except, bind.
      now rewrite (Question_query_unreachable _ db Hr). }
  split; [exact Hmain | split].
  - intros Hnone. apply Hmain. right.
    rewrite filter_category_none; [apply paginate_questions_nil|].
    intros q Hq. apply Hnone. now apply order_by_id_In.
  - intros Hp Hb. apply Hmain. right.
    apply paginate_questions_beyond; [assumption|].
    unfold len in *. now rewrite filter_category_length.
Qed.

Lemma retrieve_questions_by_category_unprocessable_witness :
  respond (retrieve_questions_by_category (mkRequest None) 101) art_db =
  error_envelope 422 "Unprocessable".
Proof.
  exact (proj1 (retrieve_questions_by_category_unprocessable art_db
                  (mkRequest None) 101) (or_intror eq_refl)).
Defined.

(** No question of [art_db] has category 101, the page is empty, and the
    answer is not 404. *)
Lemma retrieve_questions_by_category_counterexample :
  paginate_questions (mkRequest None)
    (filter_category 101 (order_by_id (questions art_db))) = []
  /\ status (respond (retrieve_questions_by_category (mkRequest None) 101)
               art_db) <> 404.
Proof. split; [reflexivity | discriminate]. Qed.

(* ================================================================== *)
(** ** [DELETE /questions/<id>] *)
(* ================================================================== *)

Lemma filter_id_none (question_id : Z) (l : list Question.t) :
  (forall q, In q l -> Question.id q <> question_id) ->
  filter_id question_id l = [].
Proof.
  unfold filter_id. induction l as [|x l IH]; intros H; simpl.
  - reflexivity.
  - destruct (Z.eqb_spec (Question.id x) question_id) as [E|_].
    + exfalso. apply (H x); [now left | exact E].
    + apply IH. intros q Hq. apply H. now right.
Qed.

Lemma filter_id_unique (q : Question.t) (l : list Question.t) :
  NoDup (map Question.id l) ->
  In q l ->
  filter_id (Question.id q) l = [q].
Proof.
  unfold filter_id. induction l as [|x l IH]; simpl; intros Hnd Hin.
  - contradiction.
  - inversion Hnd as [|i ids Hfresh Hrest]; subst.
    destruct Hin as [-> | Hin].
    + rewrite Z.eqb_refl. f_equal.
      apply (filter_id_none (Question.id q)).
      intros y Hy E. apply Hfresh. rewrite <- E. now apply in_map.
    + destruct (Z.eqb_spec (Question.id x) (Question.id q)) as [E|_].
      * exfalso. apply Hfresh. rewrite E. now apply in_map.
      * now apply IH.
Qed.

(** C4 (amended): deleting an id that no question has is answered 422
    Unprocessable (the 404 raised inside the [try] block is caught by the
    handler's own [except BaseException]) and leaves the table as it is;
    deleting the id of a stored question removes it and answers with a
    success envelope that carries the formatted question and the id. *)
Theorem delete_question_response (db : Database) (question_id : Z) :
  reachable db = true ->
  NoDup (map Question.id (questions db)) ->
  ((forall q, In q (questions db) -> Question.id q <> question_id) ->
   dispatch (delete_question question_id) db =
   (db, error_envelope 422 "Unprocessable"))
  /\ (forall q, In q (questions db) -> Question.id q = question_id ->
      dispatch (delete_question question_id) db =
      (mkDatabase
         (filter (fun x => negb (Question.id x =? question_id))
                 (questions db))
         (categories db) true,
       mkResponse 200
         (JObj [ ("success", JBool true);
                 ("deleted", Question.format q);
                 ("deleted_id", JInt question_id) ]))).
Proof.
  intros Hr Hnd. split.
  - intros Habsent.
    unfold dispatch, delete_question, try_except, bind.
    rewrite (Question_query_reachable _ db Hr).
    now rewrite (filter_id_none question_id (questions db) Habsent).
  - intros q Hq Hid. subst question_id.
    unfold dispatch, delete_question, try_except, bind.
    rewrite (Question_query_reachable _ db Hr).
    rewrite (filter_id_unique q (questions db) Hnd Hq).
    simpl. unfold Question_delete. rewrite Hr. reflexivity.
Qed.

Lemma NoDup_ids_art_db : NoDup (map Question.id (questions art_db)).
Proof.
  simpl. constructor.
  - simpl. intros [H | []]. discriminate H.
  - constructor; [simpl; tauto | constructor].
Defined.

Lemma delete_question_response_witness :
  dispatch (delete_question 500) art_db =
    (art_db, error_envelope 422 "Unprocessable")
  /\ dispatch (delete_question 2) art_db =
     (mkDatabase [question_1] (categories art_db) true,
      mkResponse 200
        (JObj [ ("success", JBool true);
                ("deleted", Question.format question_2);
                ("deleted_id", JInt 2) ])).
Proof.
  split.
  - apply (proj1 (delete_question_response art_db 500 eq_refl
                    NoDup_ids_art_db)).
    intros q [<- | [<- | []]]; discriminate.
  - apply (proj2 (delete_question_response art_db 2 eq_refl
                    NoDup_ids_art_db) question_2).
    + right. left. reflexivity.
    + reflexivity.
Defined.

(** No question of [art_db] has id 500, and the answer to its deletion
    is not 404. *)
Lemma delete_question_counterexample :
  (forall q, In q (questions art_db) -> Question.id q <> 500)
  /\ status (respond (delete_question 500) art_db) <> 404.
Proof.
  split.
  - intros q [<- | [<- | []]]; discriminate.
  - discriminate.
Qed.

(* ================================================================== *)
(** ** [POST /search] *)
(* ================================================================== *)

Lemma filter_none {A} (f : A -> bool) (l : list A) :
  (forall x, In x l -> f x = false) -> filter f l = [].
Proof.
  induction l as [|x l IH]; intros H; simpl; [reflexivity|].
  rewrite (H x) by now left. apply IH. intros y Hy. apply H. now right.
Qed.

Lemma search_question_run (db : Database) (request : Request)
  (body : SearchBody) :
  reachable db = true ->
  respond (search_question request body) db =
  mkResponse 200
    (JObj [ ("success", JBool true);
            ("questions",
             JArr (paginate_questions request
                     (filter (fun q => ilike (format_search (searchTerm body))
                                             (Question.question q))
                             (order_by_id (questions db))))) ]).
Proof.
  intros Hr. unfold respond, dispatch, search_question, bind.
  now rewrite (Question_query_reachable _ db Hr).
Qed.




(** C10: when the body has no [searchTerm], the pattern is [%None%] and
    the answer is a success envelope whose questions are the page of the
    questions, in ascending order of id, whose text contains ["none"]
    case-insensitively; every question in the answer is such a question,
    so questions without ["none"] are left out; and when they fit on the
    first page, the answer lists all of them. *)
Theorem search_question_missing_term (db : Database) (request : Request) :
  reachable db = true ->
  format_search (searchTerm (mkSearchBody None)) = "%None%"
  /\ respond (search_question request (mkSearchBody None)) db =
     mkResponse 200
       (JObj [ ("success", JBool true);
               ("questions",
                JArr (paginate_questions request
                        (filter
                           (fun q => contains_ci "none" (Question.question q))
                           (order_by_id (questions db))))) ])
  /\ (forall q,
        In q (filter (fun q => contains_ci "none" (Question.question q))
                     (order_by_id (questions db)))
        <-> In q (questions db)
            /\ contains_ci "none" (Question.question q) = true)
  /\ (forall j,
        In j (paginate_questions request
                (filter (fun q => contains_ci "none" (Question.question q))
                        (order_by_id (questions db)))) ->
        exists q, j = Question.format q
                  /\ In q (questions db)
                  /\ contains_ci "none" (Question.question q) = true)
  /\ (get_page request = 1 ->
      len (filter (fun q => contains_ci "none" (Question.question q))
                  (order_by_id (questions db))) <= 10 ->
      respond (search_question request (mkSearchBody None)) db =
      mkResponse 200
        (JObj [ ("success", JBool true);
                ("questions",
                 JArr (map Question.format
                         (filter
                            (fun q => contains_ci "none" (Question.question q))
                            (order_by_id (questions db))))) ])).
Proof.
  intros Hr. split; [reflexivity|].
  rewrite search_question_run by assumption. simpl searchTerm.
  assert (Hfilter :
    filter (fun q => ilike (format_search None) (Question.question q))
           (order_by_id (questions db)) =
    filter (fun q => contains_ci "none" (Question.question q))
           (order_by_id (questions db))).
  { apply filter_ext. intros q. apply ilike_missing_term. }
  rewrite Hfilter.
  assert (Hmem : forall q,
    In q (filter (fun q => contains_ci "none" (Question.question q))
                 (order_by_id (questions db)))
    <-> In q (questions db)
        /\ contains_ci "none" (Question.question q) = true).
  { intros q. rewrite filter_In, order_by_id_In. reflexivity. }
  split; [reflexivity | split; [exact Hmem | split]].
  - intros j Hj. apply paginate_questions_In in Hj.
    destruct Hj as (q & Hq & ->). apply Hmem in Hq.
    exists q. tauto.
  - intros Hp Hlen. now rewrite paginate_questions_first_page.
Qed.

Lemma search_question_missing_term_witness :
  respond (search_question (mkRequest None) (mkSearchBody None))
          (mkDatabase
             [Question.Build 7 "Is NONE of them right?" "Yes" 1 1;
              question_1]
             [] true) =
  mkResponse 200
    (JObj [ ("success", JBool true);
            ("questions",
             JArr [Question.format
                     (Question.Build 7 "Is NONE of them right?" "Yes" 1 1)])
          ]).
Proof.
  exact (proj1 (proj2 (search_question_missing_term
                         (mkDatabase
                            [Question.Build 7 "Is NONE of them right?"
                               "Yes" 1 1;
                             question_1]
                            [] true)
                         (mkRequest None) eq_refl))).
Defined.

(* ================================================================== *)
(** ** [POST /quizzes] *)
(* ================================================================== *)

Lemma quiz_questions_reachable (db : Database) (category_id : Z) :
  reachable db = true ->
  quiz_questions category_id db = (db, inr (candidate_set db category_id)).
Proof.
  intros Hr. unfold quiz_questions, candidate_set.
  destruct (category_id =? 0);
    now rewrite (Question_query_reachable _ db Hr).
Qed.

Lemma quiz_questions_unreachable (db : Database) (category_id : Z) :
  reachable db = false ->
  quiz_questions category_id db = (db, inl OperationalError).
Proof.
  intros Hr. unfold quiz_questions.
  destruct (category_id =? 0);
    now rewrite (Question_query_unreachable _ db Hr).
Qed.

(** The loop over the candidates, when [previous_questions] is a list:
    it keeps the questions whose id is not in the list. *)
Lemma collect_new_list (l : list Question.t) (previous : list Z)
  (db : Database) :
  collect_new l (Some previous) db =
  (db, inr (filter (fun q => negb (existsb (Z.eqb (Question.id q)) previous))
                   l)).
Proof.
  induction l as [|q l IH]; simpl; [reflexivity|].
  unfold bind in *. simpl. rewrite IH. simpl.
  now destruct (existsb (Z.eqb (Question.id q)) previous).
Qed.

(** When [previous_questions] is missing, the first membership test
    raises. *)
Lemma collect_new_missing (l : list Question.t) (db : Database) :
  collect_new l None db =
  match l with
  | [] => (db, inr [])
  | _ :: _ => (db, inl TypeError)
  end.
Proof. destruct l; reflexivity. Qed.

Lemma random_choice_In {A} (rnd : nat) (l : list A) (db : Database) :
  l <> [] ->
  exists x, In x l /\ random_choice rnd l db = (db, inr x).
Proof.
  intros Hne. unfold random_choice.
  assert (Hlt : (Nat.modulo rnd (length l) < length l)%nat).
  { apply Nat.mod_upper_bound. destruct l; [congruence | discriminate]. }
  destruct (nth_error l (Nat.modulo rnd (length l))) as [x|] eqn:E.
  - exists x. split; [now apply nth_error_In in E | reflexivity].
  - apply nth_error_None in E. lia.
Qed.

(** The outcomes of the [try] block: it raises, or it ends without a
    value, or it returns a question of the candidate set. *)
Lemma retrieve_quizzes_try_cases (rnd : nat) (category_id : Z)
  (previous : option (list Z)) (db : Database) :
  (exists e, retrieve_quizzes_try rnd category_id previous db = (db, inl e))
  \/ retrieve_quizzes_try rnd category_id previous db = (db, inr None)
  \/ (exists question,
        In question (candidate_set db category_id)
        /\ retrieve_quizzes_try rnd category_id previous db =
           (db, inr (Some (quiz_success question)))).
Proof.
  unfold retrieve_quizzes_try, bind.
  destruct (reachable db) eqn:Hr.
  - rewrite quiz_questions_reachable by assumption.
    destruct previous as [previous|].
    + rewrite collect_new_list.
      destruct (filter _ (candidate_set db category_id)) as [|y new] eqn:E.
      * right. left. reflexivity.
      * right. right.
        assert (Hne : candidate_set db category_id <> []).
        { intros Hnil. rewrite Hnil in E. discriminate. }
        destruct (random_choice_In rnd _ db Hne) as (x & Hx & Hrun).
        exists x. rewrite Hrun. split; [assumption | reflexivity].
    + rewrite collect_new_missing.
      destruct (candidate_set db category_id).
      * right. left. reflexivity.
      * left. now exists TypeError.
  - rewrite quiz_questions_unreachable by assumption.
    left. now exists OperationalError.
Qed.

(** [retrieve_quizzes] on a body that has a category id. *)
Lemma retrieve_quizzes_with_id (rnd : nat) (body : QuizBody)
  (category_id : Z) (db : Database) :
  quiz_category body = Some (mkQuizCategory (Some category_id)) ->
  retrieve_quizzes rnd body db =
  try_except
    (retrieve_quizzes_try rnd category_id (previous_questions body))
    (fun _ => abort 404) db.
Proof.
  intros Hc. unfold retrieve_quizzes, bind. rewrite Hc. reflexivity.
Qed.

(** C1: the code returns a question whose id is in [previous_questions].
    With questions 1 and 2 stored, [previous_questions = [1]] and the
    generator drawing index 0, the answer is question 1 again: the draw is
    made from all candidates, not from the unseen ones. *)
Theorem retrieve_quizzes_repeats_previous :
  respond (retrieve_quizzes 0 (quiz_body 2 [1])) art_db =
    mkResponse 200 (quiz_success question_1)
  /\ In (Question.id question_1) [1].
Proof. split; [reflexivity | now left]. Qed.

(** C2: the questions a quiz draw is made from are the candidate set: all
    questions when the category id is 0, otherwise exactly the questions
    of that category; and whatever the generator draws, the question of a
    success response belongs to the candidate set. *)
Theorem retrieve_quizzes_candidates (db : Database) (category_id : Z) :
  (reachable db = true ->
   quiz_questions category_id db = (db, inr (candidate_set db category_id)))
  /\ (category_id = 0 -> candidate_set db category_id = questions db)
  /\ (category_id <> 0 ->
      forall q, In q (candidate_set db category_id)
                <-> In q (questions db) /\ Question.category q = category_id)
  /\ (forall (rnd : nat) (previous : option (list Z)),
        is_success
          (respond
             (retrieve_quizzes rnd
                (mkQuizBody (Some (mkQuizCategory (Some category_id)))
                            previous)) db) = true ->
        exists question,
          In question (candidate_set db category_id)
          /\ respond
               (retrieve_quizzes rnd
                  (mkQuizBody (Some (mkQuizCategory (Some category_id)))
                              previous)) db =
             mkResponse 200 (quiz_success question)).
Proof.
  split; [apply quiz_questions_reachable | split; [|split]].
  - intros ->. reflexivity.
  - intros Hne q. unfold candidate_set.
    destruct (Z.eqb_spec category_id 0) as [E|_]; [contradiction|].
    rewrite filter_In, Z.eqb_eq. reflexivity.
  - intros rnd previous.
    unfold respond, dispatch.
    rewrite (retrieve_quizzes_with_id rnd
               (mkQuizBody (Some (mkQuizCategory (Some category_id)))
                           previous)
               category_id db eq_refl).
    unfold try_except. simpl previous_questions.
    destruct (retrieve_quizzes_try_cases rnd category_id previous db)
      as [[e He] | [Hnone | (question & Hin & Hq)]].
    + rewrite He. simpl. discriminate.
    + rewrite Hnone. simpl. discriminate.
    + rewrite Hq. simpl. intros _. now exists question.
Qed.

Lemma retrieve_quizzes_candidates_witness :
  exists question,
    In question (candidate_set art_db 2)
    /\ respond (retrieve_quizzes 1 (quiz_body 2 [2])) art_db =
       mkResponse 200 (quiz_success question).
Proof.
  exact (proj2 (proj2 (proj2 (retrieve_quizzes_candidates art_db 2)))
           1%nat (Some [2]) eq_refl).
Defined.

Lemma collect_new_exhausted (l : list Question.t) (previous : list Z)
  (db : Database) :
  (forall q, In q l -> In (Question.id q) previous) ->
  collect_new l (Some previous) db = (db, inr []).
Proof.
  intros Hseen. rewrite collect_new_list. do 2 f_equal.
  apply filter_none. intros q Hq. apply negb_false_iff.
  apply existsb_exists. exists (Question.id q).
  split; [now apply Hseen | apply Z.eqb_refl].
Qed.

(** C9: when the id of every candidate is in [previous_questions], the
    handler reaches the end of its body without returning a value, so no
    success response is produced: the request is answered by the error
    handler for 500. *)
Theorem retrieve_quizzes_exhausted (db : Database) (rnd : nat)
  (category_id : Z) (previous : list Z) :
  reachable db = true ->
  (forall q, In q (candidate_set db category_id) ->
             In (Question.id q) previous) ->
  retrieve_quizzes rnd (quiz_body category_id previous) db = (db, inr None)
  /\ is_success
       (respond (retrieve_quizzes rnd (quiz_body category_id previous)) db)
     = false
  /\ respond (retrieve_quizzes rnd (quiz_body category_id previous)) db =
     error_envelope 500 "Internal server error".
Proof.
  intros Hr Hseen.
  assert (Hrun :
    retrieve_quizzes rnd (quiz_body category_id previous) db =
    (db, inr None)).
  { rewrite (retrieve_quizzes_with_id rnd (quiz_body category_id previous)
               category_id db eq_refl).
    unfold try_except, retrieve_quizzes_try, bind. simpl previous_questions.
    rewrite quiz_questions_reachable by assumption.
    now rewrite collect_new_exhausted. }
  unfold respond, dispatch. rewrite Hrun. auto.
Qed.

Lemma retrieve_quizzes_exhausted_witness :
  retrieve_quizzes 0 (quiz_body 2 [2; 1]) art_db = (art_db, inr None).
Proof.
  refine (proj1 (retrieve_quizzes_exhausted art_db 0 2 [2; 1] eq_refl _)).
  intros q [<- | [<- | []]]; simpl; auto.
Defined.

(** C6 (amended): an exception raised inside the [try] block of the quiz
    handler is answered 404 Not Found; a body without [quiz_category] or
    without its [id] raises before the [try] block is entered, and is
    answered 500 by the error handler for internal errors. *)
Theorem retrieve_quizzes_exception (rnd : nat) (body : QuizBody)
  (db : Database) :
  (forall category_id e,
     quiz_category body = Some (mkQuizCategory (Some category_id)) ->
     retrieve_quizzes_try rnd category_id (previous_questions body) db =
       (db, inl e) ->
     respond (retrieve_quizzes rnd body) db =
     error_envelope 404 "Not Found")
  /\ (quiz_category body = None
      \/ quiz_category body = Some (mkQuizCategory None) ->
      (exists e, retrieve_quizzes rnd body db = (db, inl e))
      /\ respond (retrieve_quizzes rnd body) db =
         error_envelope 500 "Internal server error").
Proof.
  split.
  - intros category_id e Hc He.
    unfold respond, dispatch.
    rewrite (retrieve_quizzes_with_id rnd body category_id db Hc).
    unfold try_except. rewrite He. reflexivity.
  - unfold respond, dispatch, retrieve_quizzes, bind.
    intros [Hc | Hc]; rewrite Hc; simpl.
    + split; [now exists TypeError | reflexivity].
    + split; [now exists KeyError | reflexivity].
Qed.

Lemma retrieve_quizzes_exception_witness :
  respond (retrieve_quizzes 0
             (mkQuizBody (Some (mkQuizCategory (Some 2))) None)) art_db =
    error_envelope 404 "Not Found"
  /\ respond (retrieve_quizzes 0
                (mkQuizBody (Some (mkQuizCategory None)) (Some []))) art_db =
     error_envelope 500 "Internal server error".
Proof.
  split.
  - exact (proj1 (retrieve_quizzes_exception 0
                    (mkQuizBody (Some (mkQuizCategory (Some 2))) None)
                    art_db) 2 TypeError eq_refl eq_refl).
  - exact (proj2 (proj2 (retrieve_quizzes_exception 0
                    (mkQuizBody (Some (mkQuizCategory None)) (Some []))
                    art_db) (or_intror eq_refl))).
Defined.

(** A body whose [quiz_category] has no [id]: the handler raises, and the
    status of the answer is not 404. *)
Lemma retrieve_quizzes_counterexample :
  retrieve_quizzes 0 (mkQuizBody (Some (mkQuizCategory None)) (Some []))
                   art_db = (art_db, inl KeyError)
  /\ status (respond
               (retrieve_quizzes 0
                  (mkQuizBody (Some (mkQuizCategory None)) (Some [])))
               art_db) <> 404.
Proof. split; [reflexivity | discriminate]. Qed.

(* ================================================================== *)
(** ** Further properties of the pagination *)
(* ================================================================== *)

Lemma slice_bound_step (n i : Z) :
  0 <= n ->
  slice_bound n (i + 10) - slice_bound n i <= 10.
Proof.
  intros Hn. unfold slice_bound.
  destruct (Z.ltb_spec (i + 10) 0), (Z.ltb_spec i 0); lia.
Qed.

(** X1: whatever the page argument (also zero or negative) and whatever
    the selection, a page never holds more than ten items. *)
Theorem paginate_questions_at_most_ten (request : Request)
  (selection : list Question.t) :
  len (paginate_questions request selection) <= 10.
Proof.
  unfold paginate_questions, py_slice, QUESTIONS_PER_PAGE, len.
  rewrite length_firstn.
  pose proof (slice_bound_step
                (Z.of_nat (length (map Question.format selection)))
                ((get_page request - 1) * 10)
                (Nat2Z.is_nonneg _)).
  lia.
Qed.

Lemma paginate_questions_page_zero (request : Request)
  (selection : list Question.t) :
  get_page request = 0 ->
  paginate_questions request selection = [].
Proof.
  intros Hp. unfold paginate_questions, py_slice, QUESTIONS_PER_PAGE.
  rewrite Hp. simpl Z.add. simpl Z.mul.
  set (n := Z.of_nat (length (map Question.format selection))).
  assert (Hn : 0 <= n) by apply Nat2Z.is_nonneg.
  replace (Z.to_nat (slice_bound n 0 - slice_bound n (-10))) with 0%nat.
  - reflexivity.
  - unfold slice_bound. simpl. lia.
Qed.

(** X2: page 0 is empty for every selection (the slice runs from ten
    before the end to index 0), so [GET /questions?page=0] is answered
    404 whatever the table holds. *)
Theorem retrieve_questions_page_zero (db : Database) (request : Request) :
  get_page request = 0 ->
  (forall selection, paginate_questions request selection = [])
  /\ (reachable db = true ->
      respond (retrieve_questions request) db = not_found).
Proof.
  intros Hp. split.
  - intros selection. now apply paginate_questions_page_zero.
  - intros Hr. unfold respond, dispatch, retrieve_questions, bind.
    rewrite (Category_query_all_reachable db Hr).
    rewrite (Question_query_reachable order_by_id db Hr).
    now rewrite paginate_questions_page_zero.
Qed.

Lemma retrieve_questions_page_zero_witness :
  respond (retrieve_questions (mkRequest (Some 0))) twelve_db = not_found.
Proof.
  exact (proj2 (retrieve_questions_page_zero twelve_db (mkRequest (Some 0))
                  eq_refl) eq_refl).
Defined.

(** X3: a negative page number counts pages from the end: page [p < 0] of
    a selection is page [1 - p] of the reversed selection, read
    backwards (so [page=-1] returns the ten items before the last ten). *)
Theorem paginate_questions_negative_page (p : Z)
  (selection : list Question.t) :
  p < 0 ->
  paginate_questions (mkRequest (Some p)) selection =
  rev (paginate_questions (mkRequest (Some (1 - p))) (rev selection)).
Proof.
  intros Hp.
  assert (Hq : 1 <= get_page (mkRequest (Some (1 - p))))
    by (unfold get_page, args_page; lia).
  rewrite (paginate_questions_window (mkRequest (Some (1 - p)))
             (rev selection) Hq).
  unfold paginate_questions, py_slice, QUESTIONS_PER_PAGE.
  unfold get_page, args_page.
  rewrite map_rev.
  set (items := map Question.format selection).
  set (n := length items).
  set (a := Z.to_nat ((1 - p - 1) * 10)).
  rewrite skipn_rev, firstn_rev, rev_involutive, length_firstn.
  fold n. rewrite skipn_firstn_comm.
  unfold slice_bound.
  destruct (Z.ltb_spec ((p - 1) * 10) 0); [|lia].
  destruct (Z.ltb_spec ((p - 1) * 10 + 10) 0); [|lia].
  replace (Z.to_nat (Z.max 0 ((p - 1) * 10 + Z.of_nat n)))
    with (Nat.min (n - a) n - 10)%nat by lia.
  f_equal. lia.
Qed.

Lemma paginate_questions_negative_page_witness :
  paginate_questions (mkRequest (Some (-1))) twelve_questions =
  rev (paginate_questions (mkRequest (Some 2)) (rev twelve_questions)).
Proof.
  exact (paginate_questions_negative_page (-1) twelve_questions eq_refl).
Defined.

Lemma firstn_add {A} (a b : nat) (l : list A) :
  firstn (a + b) l = firstn a l ++ firstn b (skipn a l).
Proof.
  revert l. induction a as [|a IH]; intros l; simpl; [reflexivity|].
  destruct l as [|x l]; simpl.
  - now rewrite firstn_nil.
  - now rewrite IH.
Qed.

(** X4: the pages tile the selection: pages 1 to [m] put one after the
    other are the first [10 * m] formatted questions, without gap or
    repetition; with enough pages they are the whole selection. *)
Theorem paginate_questions_tiling (m : nat) (selection : list Question.t) :
  concat (map (fun k => paginate_questions
                          (mkRequest (Some (Z.of_nat k))) selection)
              (seq 1 m)) =
    firstn (10 * m) (map Question.format selection)
  /\ ((length selection <= 10 * m)%nat ->
      concat (map (fun k => paginate_questions
                              (mkRequest (Some (Z.of_nat k))) selection)
                  (seq 1 m)) =
      map Question.format selection).
Proof.
  assert (Htile :
    concat (map (fun k => paginate_questions
                            (mkRequest (Some (Z.of_nat k))) selection)
                (seq 1 m)) =
    firstn (10 * m) (map Question.format selection)).
  { induction m as [|m IH]; [reflexivity|].
    rewrite seq_S, map_app, concat_app, IH.
    change (1 + m)%nat with (S m).
    cbn [map concat]. rewrite app_nil_r.
    assert (Hq : 1 <= get_page (mkRequest (Some (Z.of_nat (S m)))))
      by (unfold get_page, args_page; lia).
    rewrite (paginate_questions_window
               (mkRequest (Some (Z.of_nat (S m)))) selection Hq).
    unfold get_page, args_page.
    replace (Z.to_nat ((Z.of_nat (S m) - 1) * 10)) with (10 * m)%nat
      by lia.
    replace (10 * S m)%nat with (10 * m + 10)%nat by lia.
    now rewrite firstn_add. }
  split; [exact Htile|].
  intros Hlen. rewrite Htile. apply firstn_all2.
  now rewrite length_map.
Qed.

Lemma paginate_questions_tiling_witness :
  concat (map (fun k => paginate_questions
                          (mkRequest (Some (Z.of_nat k))) twelve_questions)
              (seq 1 2)) =
  map Question.format twelve_questions.
Proof.
  exact (proj2 (paginate_questions_tiling 2 twelve_questions)
           (proj1 (Nat.leb_le 12 20) eq_refl)).
Defined.

(* ================================================================== *)
(** ** Further properties of the listing handlers *)
(* ================================================================== *)

Lemma py_slice_map {A B} (f : A -> B) (l : list A) (start stop : Z) :
  py_slice (map f l) start stop = map f (py_slice l start stop).
Proof.
  unfold py_slice. now rewrite length_map, skipn_map, firstn_map.
Qed.

Lemma paginate_questions_rows (request : Request)
  (selection : list Question.t) :
  paginate_questions request selection =
  map Question.format (page_rows request selection).
Proof. unfold paginate_questions, page_rows. apply py_slice_map. Qed.

Lemma page_rows_In (request : Request) (selection : list Question.t)
  (q : Question.t) :
  In q (page_rows request selection) -> In q selection.
Proof.
  unfold page_rows, py_slice. intros Hq.
  now apply In_firstn, In_skipn in Hq.
Qed.

Lemma ascending_skipn (n : nat) (l : list Question.t) :
  ascending_ids l -> ascending_ids (skipn n l).
Proof.
  unfold ascending_ids. revert l.
  induction n as [|n IH]; intros [|x l] Hs; simpl; try assumption.
  apply IH. now apply StronglySorted_inv in Hs.
Qed.

Lemma ascending_firstn (n : nat) (l : list Question.t) :
  ascending_ids l -> ascending_ids (firstn n l).
Proof.
  unfold ascending_ids. revert l.
  induction n as [|n IH]; intros [|x l] Hs; simpl; try constructor.
  - apply IH. now apply StronglySorted_inv in Hs.
  - apply StronglySorted_inv in Hs. destruct Hs as [_ Hx].
    rewrite Forall_forall in *. intros y Hy.
    apply Hx. now apply In_firstn in Hy.
Qed.

Lemma page_rows_ascending (request : Request)
  (selection : list Question.t) :
  ascending_ids selection -> ascending_ids (page_rows request selection).
Proof.
  intros Hs. unfold page_rows, py_slice.
  now apply ascending_firstn, ascending_skipn.
Qed.

Lemma retrieve_questions_run (db : Database) (request : Request) :
  reachable db = true ->
  respond (retrieve_questions request) db =
  if len (paginate_questions request (order_by_id (questions db))) =? 0
  then not_found
  else mkResponse 200
         (JObj [ ("success", JBool true);
                 ("questions",
                  JArr (paginate_questions request
                          (order_by_id (questions db))));
                 ("total_questions", JInt (len (questions db)));
                 ("current category", JNull);
                 ("categories",
                  JArr (map Category.format (categories db))) ]).
Proof.
  intros Hr. unfold respond, dispatch, retrieve_questions, bind.
  rewrite (Category_query_all_reachable db Hr).
  rewrite (Question_query_reachable order_by_id db Hr).
  destruct (len _ =? 0); [reflexivity|].
  now rewrite (Question_query_reachable (fun l => l) db Hr).
Qed.

(** X5: the questions of a successful [GET /questions] are stored
    questions in ascending order of id, whatever the order in which the
    table holds them, while [total_questions] counts the whole table. *)
Theorem retrieve_questions_ascending (db : Database) (request : Request) :
  reachable db = true ->
  paginate_questions request (order_by_id (questions db)) <> [] ->
  respond (retrieve_questions request) db =
    mkResponse 200
      (JObj [ ("success", JBool true);
              ("questions",
               JArr (map Question.format
                       (page_rows request (order_by_id (questions db)))));
              ("total_questions", JInt (len (questions db)));
              ("current category", JNull);
              ("categories", JArr (map Category.format (categories db))) ])
  /\ ascending_ids (page_rows request (order_by_id (questions db)))
  /\ (forall q, In q (page_rows request (order_by_id (questions db))) ->
                In q (questions db)).
Proof.
  intros Hr Hne. split; [|split].
  - rewrite retrieve_questions_run by assumption.
    apply len_zero_false in Hne. rewrite Hne.
    now rewrite paginate_questions_rows.
  - apply page_rows_ascending, order_by_id_ascending.
  - intros q Hq. apply page_rows_In in Hq. now apply order_by_id_In.
Qed.

Lemma retrieve_questions_ascending_witness :
  ascending_ids
    (page_rows (mkRequest None) (order_by_id [question_2; question_1])).
Proof.
  exact (proj1 (proj2 (retrieve_questions_ascending
                         (mkDatabase [question_2; question_1] [] true)
                         (mkRequest None) eq_refl
                         ltac:(discriminate)))).
Defined.

(** X6: [GET /categories] answers 404 when the category table is empty,
    otherwise a success envelope with every category and their number;
    it has no [try] block, so a failing query is answered 500. *)
Theorem retrive_categories_response (db : Database) :
  (reachable db = true -> categories db = [] ->
   respond retrive_categories db = not_found)
  /\ (reachable db = true -> categories db <> [] ->
      respond retrive_categories db =
      mkResponse 200
        (JObj [ ("success", JBool true);
                ("categories", JArr (map Category.format (categories db)));
                ("total_categories", JInt (len (categories db))) ]))
  /\ (reachable db = false ->
      respond retrive_categories db = server_error).
Proof.
  unfold respond, dispatch, retrive_categories, bind, Category_query_all.
  split; [|split]; intros Hr; rewrite Hr.
  - intros ->. reflexivity.
  - intros Hne. unfold len. rewrite length_map.
    destruct (categories db) as [|c l] eqn:E; [congruence|].
    reflexivity.
  - reflexivity.
Qed.

Lemma retrive_categories_response_witness :
  respond retrive_categories (mkDatabase [question_1] [] true) = not_found
  /\ respond retrive_categories twelve_db =
     mkResponse 200
       (JObj [ ("success", JBool true);
               ("categories", JArr [Category.format (Category.Build 1 "Science")]);
               ("total_categories", JInt 1) ]).
Proof.
  split.
  - exact (proj1 (retrive_categories_response
                    (mkDatabase [question_1] [] true)) eq_refl eq_refl).
  - exact (proj1 (proj2 (retrive_categories_response twelve_db)) eq_refl
             ltac:(discriminate)).
Defined.

(** X7: when its page is not empty, [GET /categories/<id>/questions]
    answers with the page, the number of all questions of the category
    (not of the page) and the category id; every question of the page is
    a stored question of that category. *)
Theorem retrieve_questions_by_category_success (db : Database)
  (request : Request) (category_id : Z) :
  reachable db = true ->
  paginate_questions request
    (filter_category category_id (order_by_id (questions db))) <> [] ->
  respond (retrieve_questions_by_category request category_id) db =
    mkResponse 200
      (JObj [ ("success", JBool true);
              ("questions",
               JArr (paginate_questions request
                       (filter_category category_id
                          (order_by_id (questions db)))));
              ("total_questions",
               JInt (len (filter_category category_id (questions db))));
              ("current_category", JInt category_id) ])
  /\ (forall j,
        In j (paginate_questions request
                (filter_category category_id (order_by_id (questions db)))) ->
        exists q, j = Question.format q
                  /\ In q (questions db)
                  /\ Question.category q = category_id).
Proof.
  intros Hr Hne. split.
  - rewrite retrieve_questions_by_category_run by assumption.
    apply len_zero_false in Hne. now rewrite Hne.
  - intros j Hj. apply paginate_questions_In in Hj.
    destruct Hj as (q & Hq & ->). exists q.
    unfold filter_category in Hq. apply filter_In in Hq.
    destruct Hq as [Hq Hc]. apply (proj1 (order_by_id_In _ _)) in Hq.
    apply Z.eqb_eq in Hc. split; [reflexivity | split; assumption].
Qed.

Lemma retrieve_questions_by_category_success_witness :
  respond (retrieve_questions_by_category (mkRequest None) 2) art_db =
  mkResponse 200
    (JObj [ ("success", JBool true);
            ("questions",
             JArr [Question.format question_1; Question.format question_2]);
            ("total_questions", JInt 2);
            ("current_category", JInt 2) ]).
Proof.
  exact (proj1 (retrieve_questions_by_category_success art_db
                  (mkRequest None) 2 eq_refl ltac:(discriminate))).
Defined.

(** X8: one and the same failure of the database is reported with three
    different statuses: 500 by the handlers without a [try] block
    ([GET /questions], [GET /categories], [POST /search]), 422 by the
    category listing and the deletion, and 404 by the quiz draw. *)
Theorem database_failure_statuses (db : Database) (request : Request)
  (body : SearchBody) (id : Z) (rnd : nat) (previous : option (list Z)) :
  reachable db = false ->
  respond (retrieve_questions request) db = server_error
  /\ respond retrive_categories db = server_error
  /\ respond (search_question request body) db = server_error
  /\ respond (retrieve_questions_by_category request id) db = unprocessable
  /\ respond (delete_question id) db = unprocessable
  /\ respond (retrieve_quizzes rnd
                (mkQuizBody (Some (mkQuizCategory (Some id))) previous)) db =
     not_found.
Proof.
  intros Hr.
  unfold respond, dispatch, retrieve_questions, retrive_categories,
    search_question, retrieve_questions_by_category, delete_question,
    retrieve_quizzes, retrieve_quizzes_try, try_except, bind.
  simpl subscript_id. unfold ret.
  rewrite (quiz_questions_unreachable db id Hr).
  unfold Category_query_all, Question_query. rewrite Hr.
  repeat split; reflexivity.
Qed.

Lemma database_failure_statuses_witness :
  respond (delete_question 1) (mkDatabase [question_1] [] false) =
  unprocessable.
Proof.
  exact (proj1 (proj2 (proj2 (proj2 (proj2
           (database_failure_statuses (mkDatabase [question_1] [] false)
              (mkRequest None) (mkSearchBody None) 1 0 None eq_refl)))))).
Defined.

(* ================================================================== *)
(** ** Further properties of the deletion *)
(* ================================================================== *)

Lemma filter_id_In (question_id : Z) (l : list Question.t)
  (q : Question.t) :
  In q (filter_id question_id l) -> Question.id q = question_id.
Proof.
  unfold filter_id. intros Hq. apply filter_In in Hq.
  now apply Z.eqb_eq.
Qed.

Lemma delete_question_found (db : Database) (question_id : Z)
  (q : Question.t) :
  reachable db = true ->
  filter_id question_id (questions db) = [q] ->
  dispatch (delete_question question_id) db =
  (without_question db question_id,
   mkResponse 200 (deleted_envelope q question_id)).
Proof.
  intros Hr Hq.
  assert (Hid : Question.id q = question_id).
  { apply (filter_id_In question_id (questions db)). rewrite Hq. now left. }
  unfold dispatch, delete_question, try_except, bind.
  rewrite (Question_query_reachable _ db Hr), Hq. simpl.
  unfold Question_delete, without_question. rewrite Hr, Hid. reflexivity.
Qed.

Lemma delete_question_absent (db : Database) (question_id : Z) :
  reachable db = true ->
  filter_id question_id (questions db) = [] ->
  dispatch (delete_question question_id) db = (db, unprocessable).
Proof.
  intros Hr Hq. unfold dispatch, delete_question, try_except, bind.
  now rewrite (Question_query_reachable _ db Hr), Hq.
Qed.

(** X9: a deletion has two outcomes only.  When the database answers and
    exactly one row has the id, the row is removed and the answer is the
    success envelope; in every other case (no such row, several rows, a
    failing database) the answer is 422 and the database is left as it
    was.  It never answers 404 or 500. *)
Theorem delete_question_outcomes (db : Database) (question_id : Z) :
  (exists q,
      reachable db = true
      /\ filter_id question_id (questions db) = [q]
      /\ dispatch (delete_question question_id) db =
         (without_question db question_id,
          mkResponse 200 (deleted_envelope q question_id)))
  \/ ((reachable db = false
       \/ filter_id question_id (questions db) = []
       \/ (2 <= length (filter_id question_id (questions db)))%nat)
      /\ dispatch (delete_question question_id) db = (db, unprocessable)).
Proof.
  destruct (reachable db) eqn:Hr.
  - destruct (filter_id question_id (questions db)) as [|q [|q' l]] eqn:E.
    + right. split; [auto|].
      unfold dispatch, delete_question, try_except, bind.
      now rewrite (Question_query_reachable _ db Hr), E.
    + left. exists q. repeat split.
      now apply delete_question_found.
    + right. split; [right; right; simpl; lia|].
      unfold dispatch, delete_question, try_except, bind.
      now rewrite (Question_query_reachable _ db Hr), E.
  - right. split; [auto|].
    unfold dispatch, delete_question, try_except, bind.
    now rewrite (Question_query_unreachable _ db Hr).
Qed.

Lemma filter_other_ids_length (q : Question.t) (l : list Question.t) :
  NoDup (map Question.id l) ->
  In q l ->
  S (length (filter (fun x => negb (Question.id x =? Question.id q)) l)) =
  length l.
Proof.
  induction l as [|x l IH]; simpl; intros Hnd Hin; [contradiction|].
  inversion Hnd as [|i ids Hfresh Hrest]; subst.
  destruct Hin as [-> | Hin].
  - rewrite Z.eqb_refl. simpl. f_equal.
    f_equal. symmetry. rewrite <- (filter_ext_in (fun _ => true)).
    + clear. induction l; simpl; congruence.
    + intros y Hy. symmetry. apply negb_true_iff, Z.eqb_neq.
      intros E. apply Hfresh. rewrite <- E. now apply in_map.
  - destruct (Z.eqb_spec (Question.id x) (Question.id q)) as [E|_]; simpl.
    + exfalso. apply Hfresh. rewrite E. now apply in_map.
    + f_equal. now apply IH.
Qed.

Lemma NoDup_ids_filter (f : Question.t -> bool) (l : list Question.t) :
  NoDup (map Question.id l) ->
  NoDup (map Question.id (filter f l)).
Proof.
  induction l as [|x l IH]; simpl; intros Hnd; [constructor|].
  inversion Hnd as [|i ids Hfresh Hrest]; subst.
  destruct (f x); simpl; [|now apply IH].
  constructor; [|now apply IH].
  intros Hin. apply Hfresh. apply in_map_iff in Hin.
  destruct Hin as (y & Hy & Hin). apply filter_In in Hin.
  apply in_map_iff. exists y. tauto.
Qed.

(** X10: after the deletion of a stored question (ids being unique), a
    lookup by its id finds nothing, every other question is still stored,
    the table is one row shorter, its ids are still unique and the
    categories are untouched. *)
Theorem delete_question_removes (db : Database) (q : Question.t) :
  reachable db = true ->
  NoDup (map Question.id (questions db)) ->
  In q (questions db) ->
  dispatch (delete_question (Question.id q)) db =
    (without_question db (Question.id q),
     mkResponse 200 (deleted_envelope q (Question.id q)))
  /\ filter_id (Question.id q)
       (questions (without_question db (Question.id q))) = []
  /\ (forall x, In x (questions (without_question db (Question.id q)))
                <-> In x (questions db) /\ x <> q)
  /\ len (questions (without_question db (Question.id q))) =
     len (questions db) - 1
  /\ NoDup (map Question.id
              (questions (without_question db (Question.id q))))
  /\ categories (without_question db (Question.id q)) = categories db.
Proof.
  intros Hr Hnd Hin. split; [|split; [|split; [|split; [|split]]]].
  - apply delete_question_found; [assumption|].
    now apply filter_id_unique.
  - apply filter_id_none. simpl. intros x Hx.
    apply filter_In in Hx. destruct Hx as [_ Hx].
    now apply negb_true_iff, Z.eqb_neq in Hx.
  - intros x. simpl. rewrite filter_In, negb_true_iff, Z.eqb_neq.
    split.
    + intros [Hx Hne]. split; [assumption|]. intros ->. now apply Hne.
    + intros [Hx Hne]. split; [assumption|]. intros E. apply Hne.
      assert (Hone : In x (filter_id (Question.id q) (questions db))).
      { unfold filter_id. apply filter_In. split; [assumption|].
        now apply Z.eqb_eq. }
      rewrite (filter_id_unique q (questions db) Hnd Hin) in Hone.
      destruct Hone as [<- | []]. reflexivity.
  - simpl. unfold len.
    rewrite <- (filter_other_ids_length q (questions db) Hnd Hin). lia.
  - simpl. now apply NoDup_ids_filter.
  - reflexivity.
Qed.

Lemma delete_question_removes_witness :
  filter_id 2 (questions (without_question art_db 2)) = []
  /\ len (questions (without_question art_db 2)) = 1.
Proof.
  pose proof (delete_question_removes art_db question_2 eq_refl
                NoDup_ids_art_db (or_intror (or_introl eq_refl))) as H.
  exact (conj (proj1 (proj2 H)) (proj1 (proj2 (proj2 (proj2 H))))).
Defined.

(** X11: deleting the same id a second time is answered 422 and changes
    nothing more. *)
Theorem delete_question_twice (db : Database) (q : Question.t) :
  reachable db = true ->
  NoDup (map Question.id (questions db)) ->
  In q (questions db) ->
  dispatch (delete_question (Question.id q))
           (fst (dispatch (delete_question (Question.id q)) db)) =
  (without_question db (Question.id q), unprocessable).
Proof.
  intros Hr Hnd Hin.
  rewrite (delete_question_found db (Question.id q) q Hr
             (filter_id_unique q (questions db) Hnd Hin)).
  simpl fst. apply delete_question_absent; [exact Hr|].
  apply filter_id_none. simpl. intros x Hx.
  apply filter_In in Hx. destruct Hx as [_ Hx].
  now apply negb_true_iff, Z.eqb_neq in Hx.
Qed.

Lemma delete_question_twice_witness :
  dispatch (delete_question 2) (fst (dispatch (delete_question 2) art_db)) =
  (without_question art_db 2, unprocessable).
Proof.
  exact (delete_question_twice art_db question_2 eq_refl NoDup_ids_art_db
           (or_intror (or_introl eq_refl))).
Defined.

(* ================================================================== *)
(** ** Further properties of the search *)
(* ================================================================== *)

Lemma search_question_matches (db : Database) (request : Request)
  (body : SearchBody) :
  reachable db = true ->
  respond (search_question request body) db =
  mkResponse 200
    (JObj [ ("success", JBool true);
            ("questions",
             JArr (paginate_questions request
                     (search_matches db (searchTerm body)))) ]).
Proof. intros Hr. now rewrite search_question_run. Qed.

Lemma filter_all {A} (f : A -> bool) (l : list A) :
  (forall x, In x l -> f x = true) -> filter f l = l.
Proof.
  induction l as [|x l IH]; intros H; simpl; [reflexivity|].
  rewrite (H x) by now left. f_equal. apply IH.
  intros y Hy. apply H. now right.
Qed.

(** X12: a search for the empty string selects every question: its answer
    carries the page that [GET /questions] shows for the same request. *)
Theorem search_question_empty_term (db : Database) (request : Request) :
  reachable db = true ->
  search_matches db (Some "") = order_by_id (questions db)
  /\ respond (search_question request (mkSearchBody (Some ""))) db =
     mkResponse 200
       (JObj [ ("success", JBool true);
               ("questions",
                JArr (paginate_questions request
                        (order_by_id (questions db)))) ]).
Proof.
  intros Hr.
  assert (Hall : search_matches db (Some "") = order_by_id (questions db)).
  { unfold search_matches. apply filter_all. intros q _.
    rewrite ilike_plain_term by reflexivity.
    unfold contains_ci. simpl. now destruct (map lower _). }
  split; [exact Hall|].
  rewrite search_question_matches by assumption. simpl searchTerm.
  now rewrite Hall.
Qed.

Lemma search_question_empty_term_witness :
  search_matches art_db (Some "") = [question_1; question_2].
Proof.
  exact (proj1 (search_question_empty_term art_db (mkRequest None) eq_refl)).
Defined.

Lemma like_percent_skip (p pre t : list ascii) :
  like ("%"%char :: p) t = true ->
  like ("%"%char :: p) (pre ++ t) = true.
Proof.
  intros Ht. induction pre as [|x pre IH]; [exact Ht|].
  simpl app. rewrite like_percent, IH. apply orb_true_r.
Qed.

(** A pattern without backslash matches itself, whatever follows. *)
Lemma like_self (s p t : list ascii) :
  forallb (fun c => negb (Ascii.eqb c "\")) s = true ->
  like p t = true ->
  like (s ++ p) (s ++ t) = true.
Proof.
  intros Hs Hp. induction s as [|c s IH]; [exact Hp|].
  simpl in Hs. apply andb_prop in Hs. destruct Hs as [Hc Hs].
  apply negb_true_iff in Hc. specialize (IH Hs).
  destruct (Ascii.eqb_spec c "%") as [-> | Hpc].
  - simpl app. rewrite like_percent. apply orb_true_iff. right.
    rewrite like_percent, IH. reflexivity.
  - destruct (Ascii.eqb_spec c "_") as [-> | Hus].
    + exact IH.
    + simpl app. rewrite like_literal.
      * now rewrite Ascii.eqb_refl.
      * unfold like_special.
        apply Ascii.eqb_neq in Hpc, Hus. now rewrite Hpc, Hus, Hc.
Qed.

Lemma backslash_lower (c : ascii) :
  Ascii.eqb (lower c) "\" = Ascii.eqb c "\".
Proof.
  destruct c as [[] [] [] [] [] [] [] []]; reflexivity.
Qed.

Lemma ilike_finds_literal (s text : string) :
  no_backslash s = true ->
  contains_ci s text = true ->
  ilike (format_search (Some s)) text = true.
Proof.
  unfold no_backslash, contains_ci, ilike, format_search. intros Hs Hc.
  apply infixb_spec in Hc. destruct Hc as (pre & post & Htext).
  change ("%" ++ s ++ "%")%string with (String "%" (s ++ "%")).
  simpl list_ascii_of_string.
  rewrite list_ascii_of_string_app. simpl list_ascii_of_string.
  rewrite map_cons, map_app. simpl map at 2.
  change (lower "%") with "%"%char.
  rewrite Htext. apply like_percent_skip.
  rewrite like_percent. apply orb_true_iff. left.
  apply like_self; [|apply like_percent_only].
  rewrite forallb_forall in *. intros c Hc.
  apply in_map_iff in Hc. destruct Hc as (c0 & <- & Hc0).
  rewrite backslash_lower. now apply Hs.
Qed.

(** X14: for an ASCII term without backslash (wildcards allowed) over
    ASCII question texts, the search misses no literal occurrence: every
    stored question whose text contains the term, case-insensitively, is
    among the questions that the answer is paged from. *)
Theorem search_question_finds_literal (db : Database) (request : Request)
  (s : string) :
  reachable db = true ->
  is_ascii s = true ->
  ascii_texts db = true ->
  no_backslash s = true ->
  respond (search_question request (mkSearchBody (Some s))) db =
    mkResponse 200
      (JObj [ ("success", JBool true);
              ("questions",
               JArr (paginate_questions request
                       (search_matches db (Some s)))) ])
  /\ (forall q, In q (questions db) ->
                contains_ci s (Question.question q) = true ->
                In q (search_matches db (Some s))).
Proof.
  intros Hr _ _ Hs. split.
  - now rewrite search_question_matches.
  - intros q Hq Hc. unfold search_matches. apply filter_In. split.
    + now apply order_by_id_In.
    + now apply ilike_finds_literal.
Qed.

Lemma search_question_finds_literal_witness :
  In (Question.Build 3 "Is it 100% sure?" "No" 1 1)
     (search_matches
        (mkDatabase [Question.Build 3 "Is it 100% sure?" "No" 1 1;
                     question_2] [] true)
        (Some "100%")).
Proof.
  exact (proj2 (search_question_finds_literal
                  (mkDatabase [Question.Build 3 "Is it 100% sure?" "No" 1 1;
                               question_2] [] true)
                  (mkRequest None) "100%" eq_refl eq_refl eq_refl eq_refl)
           (Question.Build 3 "Is it 100% sure?" "No" 1 1)
           (or_introl eq_refl) eq_refl).
Defined.



(* ================================================================== *)
(** ** Further properties of the quiz draw *)
(* ================================================================== *)

Lemma collect_new_unseen (l : list Question.t) (previous : list Z)
  (db : Database) (q : Question.t) :
  In q l ->
  ~ In (Question.id q) previous ->
  exists x new, collect_new l (Some previous) db = (db, inr (x :: new)).
Proof.
  intros Hq Hnew. rewrite collect_new_list.
  destruct (filter _ l) as [|x new] eqn:E.
  - exfalso.
    assert (Hin : In q (filter
                          (fun q => negb (existsb (Z.eqb (Question.id q))
                                                  previous)) l)).
    { apply filter_In. split; [assumption|].
      apply negb_true_iff. apply not_true_is_false. intros Hex.
      apply existsb_exists in Hex. destruct Hex as (i & Hi & Heq).
      apply Z.eqb_eq in Heq. subst i. contradiction. }
    rewrite E in Hin. contradiction.
  - now exists x, new.
Qed.

Lemma retrieve_quizzes_unseen (db : Database) (rnd : nat)
  (category_id : Z) (previous : list Z) (q question : Question.t) :
  reachable db = true ->
  In q (candidate_set db category_id) ->
  ~ In (Question.id q) previous ->
  nth_error (candidate_set db category_id)
            (Nat.modulo rnd (length (candidate_set db category_id))) =
    Some question ->
  respond (retrieve_quizzes rnd (quiz_body category_id previous)) db =
  mkResponse 200 (quiz_success question).
Proof.
  intros Hr Hq Hnew Hnth.
  unfold respond, dispatch.
  rewrite (retrieve_quizzes_with_id rnd (quiz_body category_id previous)
             category_id db eq_refl).
  unfold try_except, retrieve_quizzes_try, bind. simpl previous_questions.
  rewrite quiz_questions_reachable by assumption.
  destruct (collect_new_unseen (candidate_set db category_id) previous db q
              Hq Hnew) as (x & new & Hnewq).
  rewrite Hnewq. unfold random_choice. rewrite Hnth. reflexivity.
Qed.

(** X16: as long as one candidate is not in [previous_questions], the
    draw succeeds, and the question it returns is the candidate at the
    generator's index: which question comes out does not depend on
    [previous_questions]. *)
Theorem retrieve_quizzes_draw (db : Database) (rnd : nat)
  (category_id : Z) (previous : list Z) (q : Question.t) :
  reachable db = true ->
  In q (candidate_set db category_id) ->
  ~ In (Question.id q) previous ->
  exists question,
    nth_error (candidate_set db category_id)
              (Nat.modulo rnd (length (candidate_set db category_id))) =
      Some question
    /\ respond (retrieve_quizzes rnd (quiz_body category_id previous)) db =
       mkResponse 200 (quiz_success question).
Proof.
  intros Hr Hq Hnew.
  assert (Hlt : (Nat.modulo rnd (length (candidate_set db category_id))
                 < length (candidate_set db category_id))%nat).
  { apply Nat.mod_upper_bound.
    destruct (candidate_set db category_id); [contradiction | discriminate]. }
  destruct (nth_error (candidate_set db category_id)
              (Nat.modulo rnd (length (candidate_set db category_id))))
    as [question|] eqn:E.
  - exists question. split; [reflexivity|].
    now apply (retrieve_quizzes_unseen db rnd category_id previous q).
  - apply nth_error_None in E. lia.
Qed.

Lemma retrieve_quizzes_draw_witness :
  exists question,
    nth_error (candidate_set art_db 2)
              (Nat.modulo 3 (length (candidate_set art_db 2))) =
      Some question
    /\ respond (retrieve_quizzes 3 (quiz_body 2 [1])) art_db =
       mkResponse 200 (quiz_success question).
Proof.
  refine (retrieve_quizzes_draw art_db 3 2 [1] question_2 eq_refl
            (or_intror (or_introl eq_refl)) _).
  intros [H | []]. discriminate H.
Defined.

(** X17: as long as one candidate is not in [previous_questions], every
    candidate can come out of the draw, also one whose id is in
    [previous_questions]: for each candidate there is a draw of the
    generator that returns it. *)
Theorem retrieve_quizzes_any_candidate (db : Database) (category_id : Z)
  (previous : list Z) (q question : Question.t) :
  reachable db = true ->
  In q (candidate_set db category_id) ->
  ~ In (Question.id q) previous ->
  In question (candidate_set db category_id) ->
  exists rnd,
    respond (retrieve_quizzes rnd (quiz_body category_id previous)) db =
    mkResponse 200 (quiz_success question).
Proof.
  intros Hr Hq Hnew Hin.
  destruct (In_nth_error _ _ Hin) as (i & Hi).
  exists i.
  apply (retrieve_quizzes_unseen db i category_id previous q);
    try assumption.
  rewrite Nat.mod_small; [exact Hi|].
  apply nth_error_Some. congruence.
Qed.

Lemma retrieve_quizzes_any_candidate_witness :
  exists rnd,
    respond (retrieve_quizzes rnd (quiz_body 2 [1])) art_db =
    mkResponse 200 (quiz_success question_1).
Proof.
  refine (retrieve_quizzes_any_candidate art_db 2 [1] question_2 question_1
            eq_refl (or_intror (or_introl eq_refl)) _ (or_introl eq_refl)).
  intros [H | []]. discriminate H.
Defined.

(** X18: a body that has a category id but no [previous_questions]: when
    the category has candidates the membership test raises and the answer
    is 404; when it has none the loop body never runs, the handler ends
    without a value and the answer is 500. *)
Theorem retrieve_quizzes_missing_previous (db : Database) (rnd : nat)
  (category_id : Z) :
  reachable db = true ->
  (candidate_set db category_id <> [] ->
   respond (retrieve_quizzes rnd
              (mkQuizBody (Some (mkQuizCategory (Some category_id))) None))
           db = not_found)
  /\ (candidate_set db category_id = [] ->
      respond (retrieve_quizzes rnd
                 (mkQuizBody (Some (mkQuizCategory (Some category_id))) None))
              db = server_error).
Proof.
  intros Hr.
  unfold respond, dispatch.
  rewrite (retrieve_quizzes_with_id rnd
             (mkQuizBody (Some (mkQuizCategory (Some category_id))) None)
             category_id db eq_refl).
  unfold try_except, retrieve_quizzes_try, bind. simpl previous_questions.
  rewrite quiz_questions_reachable by assumption.
  rewrite collect_new_missing.
  destruct (candidate_set db category_id) as [|x l].
  - split; [congruence | reflexivity].
  - split; [reflexivity | discriminate].
Qed.

Lemma retrieve_quizzes_missing_previous_witness :
  respond (retrieve_quizzes 0
             (mkQuizBody (Some (mkQuizCategory (Some 2))) None)) art_db =
    not_found
  /\ respond (retrieve_quizzes 0
                (mkQuizBody (Some (mkQuizCategory (Some 7))) None)) art_db =
     server_error.
Proof.
  split.
  - exact (proj1 (retrieve_quizzes_missing_previous art_db 0 2 eq_refl)
             ltac:(discriminate)).
  - exact (proj2 (retrieve_quizzes_missing_previous art_db 0 7 eq_refl)
             eq_refl).
Defined.

Lemma format_inj (a b : Question.t) :
  Question.format a = Question.format b -> a = b.
Proof.
  destruct a, b. unfold Question.format. simpl.
  intros H. injection H as -> -> -> -> ->. reflexivity.
Qed.

Lemma candidate_set_stored (db : Database) (category_id : Z)
  (q : Question.t) :
  In q (candidate_set db category_id) -> In q (questions db).
Proof.
  unfold candidate_set. destruct (category_id =? 0); [auto|].
  intros Hq. now apply filter_In in Hq.
Qed.

(** The question of a successful draw is a stored question. *)
Lemma retrieve_quizzes_success_stored (db : Database) (rnd : nat)
  (body : QuizBody) (question : Question.t) :
  respond (retrieve_quizzes rnd body) db =
    mkResponse 200 (quiz_success question) ->
  In question (questions db).
Proof.
  unfold respond, dispatch, retrieve_quizzes, bind.
  destruct (quiz_category body) as [[[category_id|]]|]; simpl;
    try discriminate.
  unfold try_except.
  destruct (retrieve_quizzes_try_cases rnd category_id
              (previous_questions body) db)
    as [[e He] | [Hnone | (x & Hin & Hx)]].
  - rewrite He. simpl. discriminate.
  - rewrite Hnone. simpl. discriminate.
  - rewrite Hx. simpl. intros H.
    assert (Hfmt : Question.format x = Question.format question)
      by (unfold quiz_success in H; congruence).
    apply format_inj in Hfmt. subst x.
    now apply candidate_set_stored in Hin.
Qed.

(** X19: a deleted question is never drawn again: after the successful
    deletion of a question, no quiz request, whatever its body and the
    generator's draw, is answered with that question. *)
Theorem deleted_question_not_drawn (db : Database) (q : Question.t)
  (rnd : nat) (body : QuizBody) :
  reachable db = true ->
  NoDup (map Question.id (questions db)) ->
  In q (questions db) ->
  status (respond (delete_question (Question.id q)) db) = 200
  /\ respond (retrieve_quizzes rnd body)
             (fst (dispatch (delete_question (Question.id q)) db)) <>
     mkResponse 200 (quiz_success q).
Proof.
  intros Hr Hnd Hin.
  pose proof (delete_question_found db (Question.id q) q Hr
                (filter_id_unique q (questions db) Hnd Hin)) as Hdel.
  unfold respond. rewrite Hdel. split; [reflexivity|].
  simpl fst. intros Hdraw.
  apply retrieve_quizzes_success_stored in Hdraw.
  simpl in Hdraw. apply filter_In in Hdraw.
  destruct Hdraw as [_ Hne]. now rewrite Z.eqb_refl in Hne.
Qed.

Lemma deleted_question_not_drawn_witness :
  respond (retrieve_quizzes 0 (quiz_body 2 []))
          (fst (dispatch (delete_question 1) art_db)) <>
  mkResponse 200 (quiz_success question_1).
Proof.
  exact (proj2 (deleted_question_not_drawn art_db question_1 0
                  (quiz_body 2 []) eq_refl NoDup_ids_art_db
                  (or_introl eq_refl))).
Defined.

(* ================================================================== *)
(** ** The answers of all handlers *)
(* ================================================================== *)

Lemma uniform_success (fields : list (string * json)) :
  uniform_answer (mkResponse 200 (JObj (("success", JBool true) :: fields))).
Proof. left. reflexivity. Qed.

Lemma uniform_not_found : uniform_answer not_found.
Proof. right. left. reflexivity. Qed.

Lemma uniform_unprocessable : uniform_answer unprocessable.
Proof. right. right. left. reflexivity. Qed.

Lemma uniform_server_error : uniform_answer server_error.
Proof. right. right. right. reflexivity. Qed.

(** X20: the four handlers that read no request body: whatever the
    database and the request, each of them answers either with status 200
    and an envelope whose [success] is true, or with one of the three
    error envelopes 404, 422, 500 built by the registered error
    handlers. *)
Theorem handlers_uniform_answers (db : Database) (request : Request)
  (id : Z) :
  uniform_answer (respond (retrieve_questions request) db)
  /\ uniform_answer (respond retrive_categories db)
  /\ uniform_answer (respond (retrieve_questions_by_category request id) db)
  /\ uniform_answer (respond (delete_question id) db).
Proof.
  destruct (reachable db) eqn:Hr.
  - repeat split.
    + rewrite retrieve_questions_run by assumption.
      destruct (len _ =? 0);
        [apply uniform_not_found | apply uniform_success].
    + unfold respond, dispatch, retrive_categories, bind.
      rewrite (Category_query_all_reachable db Hr).
      destruct (len _ =? 0);
        [apply uniform_not_found | apply uniform_success].
    + rewrite retrieve_questions_by_category_run by assumption.
      destruct (len _ =? 0);
        [apply uniform_unprocessable | apply uniform_success].
    + unfold respond.
      destruct (filter_id id (questions db)) as [|q [|q' l]] eqn:E.
      * rewrite delete_question_absent by assumption.
        apply uniform_unprocessable.
      * rewrite (delete_question_found db id q Hr E).
        apply uniform_success.
      * unfold dispatch, delete_question, try_except, bind.
        rewrite (Question_query_reachable _ db Hr), E.
        apply uniform_unprocessable.
  - repeat split.
    + unfold respond, dispatch, retrieve_questions, bind, Category_query_all.
      rewrite Hr. apply uniform_server_error.
    + unfold respond, dispatch, retrive_categories, bind, Category_query_all.
      rewrite Hr. apply uniform_server_error.
    + unfold respond, dispatch, retrieve_questions_by_category,
        try_except, bind.
      rewrite (Question_query_unreachable _ db Hr).
      apply uniform_unprocessable.
    + unfold respond, dispatch, delete_question, try_except, bind.
      rewrite (Question_query_unreachable _ db Hr).
      apply uniform_unprocessable.
Qed.

(** X21: the two handlers that read a JSON body, once
    [request.get_json()] has returned it: for every parsed body (keys
    present or missing), every database and every draw of the generator,
    the search and the quiz draw answer either with status 200 and an
    envelope whose [success] is true, or with one of the error envelopes
    404, 422, 500.  (A body that [get_json] rejects is answered before
    this code runs and is not covered.) *)
Theorem body_handlers_uniform_answers (db : Database) (request : Request)
  (search_body : SearchBody) (quiz : QuizBody) (rnd : nat) :
  uniform_answer (respond (search_question request search_body) db)
  /\ uniform_answer (respond (retrieve_quizzes rnd quiz) db).
Proof.
  destruct (reachable db) eqn:Hr.
  - split.
    + rewrite search_question_run by assumption. apply uniform_success.
    + unfold respond, dispatch, retrieve_quizzes, bind.
      destruct (quiz_category quiz) as [[[category_id|]]|]; simpl;
        try apply uniform_server_error.
      unfold try_except.
      destruct (retrieve_quizzes_try_cases rnd category_id
                  (previous_questions quiz) db)
        as [[e He] | [Hnone | (x & _ & Hx)]].
      * rewrite He. apply uniform_not_found.
      * rewrite Hnone. apply uniform_server_error.
      * rewrite Hx. apply uniform_success.
  - split.
    + unfold respond, dispatch, search_question, bind.
      rewrite (Question_query_unreachable _ db Hr).
      apply uniform_server_error.
    + unfold respond, dispatch, retrieve_quizzes, bind.
      destruct (quiz_category quiz) as [[[category_id|]]|]; simpl;
        try apply uniform_server_error.
      unfold try_except, retrieve_quizzes_try, bind.
      rewrite (quiz_questions_unreachable db category_id Hr).
      apply uniform_not_found.
Qed.
